(** * drivers/thermal/gpu_cooling.c: the GPU cooling device

    A shallow embedding of the gpufreq cooling driver and the properties of
    its state/level inversion, its registration protocol and the global
    frequency-callback slot. *)

From Stdlib Require Import ZArith Lia String Ascii DecimalString.
From stdpp Require Import base option gmap strings.

Local Open Scope Z_scope.

(** ** C integers *)

(** The kernel is built for arm (ILP32) or arm64 (LP64): [int] has 32 bits in
    both, [long] follows the data model. *)
Inductive data_model := ILP32 | LP64.

Definition BITS_PER_LONG (dm : data_model) : Z :=
  match dm with ILP32 => 32 | LP64 => 64 end.

Definition BITS_PER_INT : Z := 32.

Definition EINVAL : Z := 22.
Definition ENOSPC : Z := 28.

(** Pointers are addresses; [NULL] is address 0. *)
Definition NULL : Z := 0.

Section GpuCooling.

(** [dm] fixes the width w of [unsigned long]; [HW] is the state of the
    frequency driver that the callbacks of a device read and drive. *)
Variable dm : data_model.
Variable HW : Type.

(** Conversion of an integer value to [unsigned long]: reduction modulo 2^w. *)
Definition to_ulong (z : Z) : Z := z mod 2 ^ BITS_PER_LONG dm.

(** Conversion to [unsigned int], as in the cast [(unsigned int)state]. *)
Definition to_uint (z : Z) : Z := z mod 2 ^ BITS_PER_INT.

(** [a - b] on [unsigned long] operands. *)
Definition ulong_sub (a b : Z) : Z := to_ulong (a - b).

(** ** Data model *)

(** Modelled from the spec: [struct gpufreq_cooling_device] is declared in
    <linux/gpu_cooling.h>, which is not among the sources.  The fields are the
    ones gpu_cooling.c touches, with the spec's types: [id] an integer,
    [gpufreq_state] (the spec's requested_state) an unsigned integer, three
    optional callbacks.  The source prints [gpufreq_state] with [%d], beside
    [%ld] for a cooling state: the field is as wide as an [int], and holds an
    [unsigned int].  A query callback reads the driver state and returns an
    integer; the level request acts on the driver state. *)
Record gpufreq_cooling_device := {
  id : Z;
  cool_dev : Z;
  gpufreq_state : Z;
  get_gpu_max_level : option (HW -> Z);
  get_gpu_current_max_level : option (HW -> Z);
  set_gpu_freq_idx : option (Z -> HW -> HW)
}.

Definition set_id (d : gpufreq_cooling_device) (v : Z) :=
  {| id := v; cool_dev := cool_dev d; gpufreq_state := gpufreq_state d;
     get_gpu_max_level := get_gpu_max_level d;
     get_gpu_current_max_level := get_gpu_current_max_level d;
     set_gpu_freq_idx := set_gpu_freq_idx d |}.

Definition set_cool_dev (d : gpufreq_cooling_device) (v : Z) :=
  {| id := id d; cool_dev := v; gpufreq_state := gpufreq_state d;
     get_gpu_max_level := get_gpu_max_level d;
     get_gpu_current_max_level := get_gpu_current_max_level d;
     set_gpu_freq_idx := set_gpu_freq_idx d |}.

Definition set_gpufreq_state (d : gpufreq_cooling_device) (v : Z) :=
  {| id := id d; cool_dev := cool_dev d; gpufreq_state := v;
     get_gpu_max_level := get_gpu_max_level d;
     get_gpu_current_max_level := get_gpu_current_max_level d;
     set_gpu_freq_idx := set_gpu_freq_idx d |}.

(** What the driver reads of the registry's [struct thermal_cooling_device]:
    the name it was published under and the opaque context pointer. *)
Record thermal_cooling_device := {
  type : string;
  devdata : Z
}.

(** Modelled from the spec: the Identifier Allocator behind [DEFINE_IDR]
    (the kernel's idr library is not among the sources): the set of
    identifiers in use and the capacity of the id space. *)
Record idr := {
  idr_used : gset Z;
  idr_space : Z
}.

(** Modelled from the spec: the external device registry (the thermal core is
    not among the sources): the published devices by handle, the handles the
    registry can still hand out, and what it answers when it cannot publish:
    [NULL], as the stub of a kernel built without the thermal core does, or
    an error pointer [ERR_PTR(-errno)], as the thermal core does.  Handles
    are positive, hence never [NULL]. *)
Record thermal_registry := {
  thermal_cdev_list : gmap Z thermal_cooling_device;
  thermal_free : list positive;
  thermal_refusal : Z
}.

(** The state the driver runs in: its two globals ([gpufreq_idr] and
    [gpu_freq_callback]), the registry, the live [kzalloc]ed devices by
    address, and the frequency driver. *)
Record world := {
  gpufreq_idr : idr;
  gpu_freq_callback : option (HW -> Z);
  thermal : thermal_registry;
  kmem : gmap Z gpufreq_cooling_device;
  gpu : HW
}.

Definition set_gpufreq_idr (st : world) (v : idr) :=
  {| gpufreq_idr := v; gpu_freq_callback := gpu_freq_callback st;
     thermal := thermal st; kmem := kmem st; gpu := gpu st |}.

Definition set_gpu_freq_callback (st : world) (v : option (HW -> Z)) :=
  {| gpufreq_idr := gpufreq_idr st; gpu_freq_callback := v;
     thermal := thermal st; kmem := kmem st; gpu := gpu st |}.

Definition set_thermal (st : world) (v : thermal_registry) :=
  {| gpufreq_idr := gpufreq_idr st; gpu_freq_callback := gpu_freq_callback st;
     thermal := v; kmem := kmem st; gpu := gpu st |}.

Definition set_kmem (st : world) (v : gmap Z gpufreq_cooling_device) :=
  {| gpufreq_idr := gpufreq_idr st; gpu_freq_callback := gpu_freq_callback st;
     thermal := thermal st; kmem := v; gpu := gpu st |}.

Definition set_gpu (st : world) (v : HW) :=
  {| gpufreq_idr := gpufreq_idr st; gpu_freq_callback := gpu_freq_callback st;
     thermal := thermal st; kmem := kmem st; gpu := v |}.

(** [cdev->devdata]: the address of the gpufreq device behind a registry
    handle.  [None] is a dangling handle. *)
Definition cdev_devdata (st : world) (cdev : Z) : option Z :=
  devdata <$> thermal_cdev_list (thermal st) !! cdev.

(** [kfree]. *)
Definition kfree (st : world) (p : Z) : world :=
  set_kmem st (delete p (kmem st)).

(** ** Cooling device callbacks

    A callback returns [None] when it dereferences a pointer that is not
    live, and otherwise the C return value with what it wrote. *)

(** [gpufreq_get_max_state(cdev, &state)]: returns the status and [*state]. *)
Definition gpufreq_get_max_state (st : world) (cdev : Z) (state : Z)
  : option (Z * Z) :=
  p ← cdev_devdata st cdev;
  gpufreq_device ← kmem st !! p;
  let state :=
    match get_gpu_max_level gpufreq_device with
    | Some f => to_ulong (f (gpu st))
    | None => state
    end in
  Some (0, state).

(** [gpufreq_get_cur_state(cdev, &state)]: returns the status and [*state]. *)
Definition gpufreq_get_cur_state (st : world) (cdev : Z) (state : Z)
  : option (Z * Z) :=
  p ← cdev_devdata st cdev;
  gpufreq_device ← kmem st !! p;
  '(_, max_state) ← gpufreq_get_max_state st cdev 0;
  match get_gpu_current_max_level gpufreq_device with
  | Some f =>
      let temp := to_ulong (f (gpu st)) in
      Some (0, ulong_sub (ulong_sub max_state 1) temp)
  | None => Some (- EINVAL, state)
  end.

(** [gpufreq_set_cur_state(cdev, state)]: returns the status and the state
    after the call.  The assignment to [gpufreq_state] converts the
    [unsigned long] request to the field's [unsigned int]. *)
Definition gpufreq_set_cur_state (st : world) (cdev : Z) (state : Z)
  : option (Z * world) :=
  p ← cdev_devdata st cdev;
  gpufreq_device ← kmem st !! p;
  let gpufreq_device := set_gpufreq_state gpufreq_device (to_uint state) in
  let st := set_kmem st (<[p := gpufreq_device]> (kmem st)) in
  '(ret, max_state) ← gpufreq_get_max_state st cdev 0;
  let state := ulong_sub (ulong_sub max_state 1) state in
  if (0 <=? state) && (state <=? max_state) then
    match set_gpu_freq_idx gpufreq_device with
    | Some f => Some (0, set_gpu st (f (to_uint state) (gpu st)))
    | None => Some (0, st)
    end
  else Some (0, st).

(** What the callbacks compute, for the statements below: the maximum state
    a device reports when the caller's cell holds [state], and the level
    [gpufreq_set_cur_state] derives from a request. *)
Definition max_state_of (dev : gpufreq_cooling_device) (hw : HW) (state : Z)
  : Z :=
  match get_gpu_max_level dev with
  | Some f => to_ulong (f hw)
  | None => state
  end.

Definition level_of (dev : gpufreq_cooling_device) (hw : HW) (state : Z) : Z :=
  ulong_sub (ulong_sub (max_state_of dev hw 0) 1) state.

(** ** Identifier allocator *)

(** The first identifier from [k] on that is not in [used], among the next
    [n] candidates. *)
Fixpoint first_fit (used : gset Z) (k : Z) (n : nat) : option Z :=
  match n with
  | O => None
  | S n' => if decide (k ∈ used) then first_fit used (k + 1) n' else Some k
  end.

(** Modelled from the spec: [idr_alloc(idr, NULL, 0, 0, GFP_KERNEL)], the
    spec's allocate() with its reference policy, first fit: the smallest
    unused non-negative identifier, or the failure AllocationExhausted
    (a negative errno) when the id space is full.  The search runs over the
    id space and stops after one candidate more than there are identifiers
    in use, one of which must be free. *)
Definition idr_alloc (i : idr) : Z * idr :=
  let candidates := Z.min (idr_space i) (Z.of_nat (size (idr_used i)) + 1) in
  match first_fit (idr_used i) 0 (Z.to_nat candidates) with
  | Some k => (k, {| idr_used := {[k]} ∪ idr_used i; idr_space := idr_space i |})
  | None => (- ENOSPC, i)
  end.

(** Modelled from the spec: [idr_remove(idr, id)], the spec's release(id):
    marks [id] free, and does nothing when it is free already. *)
Definition idr_remove (i : idr) (v : Z) : idr :=
  {| idr_used := idr_used i ∖ {[v]}; idr_space := idr_space i |}.

(** [get_idr(idr, &id)]: the status, the allocator afterwards and the value
    written to [*id], if any. *)
Definition get_idr (i : idr) : Z * idr * option Z :=
  let '(ret, i) := idr_alloc i in
  if ret <? 0 then (ret, i, None)
  else (0, i, Some ret).

(** [release_idr(idr, id)]. *)
Definition release_idr (i : idr) (v : Z) : idr := idr_remove i v.

(** ** Device registry *)

(** Modelled from the spec: publish(name, context, ops) -> handle | error,
    the thermal core's [thermal_cooling_device_register].  The callback table
    is always [gpufreq_cooling_ops], the three callbacks above.  Publication
    fails when the registry has no handle left, and the error is reported
    as the registry reports its errors, by [thermal_refusal]. *)
Definition thermal_cooling_device_register
    (reg : thermal_registry) (name : string) (context : Z)
  : Z * thermal_registry :=
  match thermal_free reg with
  | [] => (thermal_refusal reg, reg)
  | h :: rest =>
      (Z.pos h,
       {| thermal_cdev_list :=
            <[Z.pos h := {| type := name; devdata := context |}]>
              (thermal_cdev_list reg);
          thermal_free := rest;
          thermal_refusal := thermal_refusal reg |})
  end.

(** Modelled from the spec: unpublish(handle), the thermal core's
    [thermal_cooling_device_unregister]: a handle that is not published is
    left alone. *)
Definition thermal_cooling_device_unregister
    (reg : thermal_registry) (cdev : Z) : thermal_registry :=
  match thermal_cdev_list reg !! cdev, cdev with
  | Some _, Z.pos h =>
      {| thermal_cdev_list := delete cdev (thermal_cdev_list reg);
         thermal_free := h :: thermal_free reg;
         thermal_refusal := thermal_refusal reg |}
  | _, _ => reg
  end.

(** ** Registration protocol *)

(** [THERMAL_NAME_LENGTH] of <linux/thermal.h>. *)
Definition THERMAL_NAME_LENGTH : nat := 20.

(** [snprintf(dev_name, sizeof(dev_name), "thermal-gpufreq-%d", id)]: the
    decimal identifier after the prefix, cut to what the buffer holds before
    its terminator. *)
Definition dev_name (v : Z) : string :=
  String.substring 0 (THERMAL_NAME_LENGTH - 1)
    ("thermal-gpufreq-" ++ NilZero.string_of_int (Z.to_int v)).

(** [gpufreq_cooling_register(gpufreq_dev)]: the status and the state after
    the call. *)
Definition gpufreq_cooling_register (st : world) (gpufreq_dev : Z)
  : option (Z * world) :=
  dev ← kmem st !! gpufreq_dev;
  let '(ret, i, w) := get_idr (gpufreq_idr st) in
  let st := set_gpufreq_idr st i in
  let dev := match w with Some v => set_id dev v | None => dev end in
  let st := set_kmem st (<[gpufreq_dev := dev]> (kmem st)) in
  if negb (ret =? 0) then Some (- EINVAL, kfree st gpufreq_dev)
  else
    let name := dev_name (id dev) in
    let '(cdev, reg) :=
      thermal_cooling_device_register (thermal st) name gpufreq_dev in
    let st := set_thermal st reg in
    if cdev =? NULL then
      let st := set_gpufreq_idr st (release_idr (gpufreq_idr st) (id dev)) in
      Some (- EINVAL, kfree st gpufreq_dev)
    else
      let dev := set_gpufreq_state (set_cool_dev dev cdev) 0 in
      Some (0, set_kmem st (<[gpufreq_dev := dev]> (kmem st))).

(** [gpufreq_cooling_unregister(cdev)]: the state after the call. *)
Definition gpufreq_cooling_unregister (st : world) (cdev : Z) : option world :=
  if cdev =? NULL then Some st
  else
    gpufreq_dev ← cdev_devdata st cdev;
    dev ← kmem st !! gpufreq_dev;
    let st :=
      set_thermal st
        (thermal_cooling_device_unregister (thermal st) (cool_dev dev)) in
    let st := set_gpufreq_idr st (release_idr (gpufreq_idr st) (id dev)) in
    Some (kfree st gpufreq_dev).

(** ** Frequency callback slot *)

(** [register_gpu_freq_info(fun)]: the status and the state after the call;
    [None] is the null function pointer. *)
Definition register_gpu_freq_info (st : world) (fn : option (HW -> Z))
  : Z * world :=
  (0, match fn with
      | Some f => set_gpu_freq_callback st (Some f)
      | None => st
      end).

(** The state at boot: [DEFINE_IDR] and the null [gpu_freq_callback], an
    empty registry with the handles [free] that reports errors by [refusal],
    the live devices [devs]. *)
Definition boot (space : Z) (free : list positive) (refusal : Z)
    (devs : gmap Z gpufreq_cooling_device) (hw : HW) : world :=
  {| gpufreq_idr := {| idr_used := ∅; idr_space := space |};
     gpu_freq_callback := None;
     thermal :=
       {| thermal_cdev_list := ∅; thermal_free := free;
          thermal_refusal := refusal |};
     kmem := devs;
     gpu := hw |}.

End GpuCooling.

Arguments id {HW}.
Arguments cool_dev {HW}.
Arguments gpufreq_state {HW}.
Arguments get_gpu_max_level {HW}.
Arguments get_gpu_current_max_level {HW}.
Arguments set_gpu_freq_idx {HW}.
Arguments set_id {HW}.
Arguments set_cool_dev {HW}.
Arguments set_gpufreq_state {HW}.
Arguments gpufreq_idr {HW}.
Arguments gpu_freq_callback {HW}.
Arguments thermal {HW}.
Arguments kmem {HW}.
Arguments gpu {HW}.
Arguments set_gpufreq_idr {HW}.
Arguments set_gpu_freq_callback {HW}.
Arguments set_thermal {HW}.
Arguments set_kmem {HW}.
Arguments set_gpu {HW}.
Arguments cdev_devdata {HW}.
Arguments kfree {HW}.
Arguments gpufreq_get_max_state dm {HW}.
Arguments gpufreq_get_cur_state dm {HW}.
Arguments gpufreq_set_cur_state dm {HW}.
Arguments gpufreq_cooling_register {HW}.
Arguments gpufreq_cooling_unregister {HW}.
Arguments register_gpu_freq_info {HW}.
Arguments boot {HW}.
Arguments max_state_of dm {HW}.
Arguments level_of dm {HW}.

Definition ENOMEM : Z := 12.

(** [ERR_PTR(error)] of <linux/err.h>: the error number as an address. *)
Definition ERR_PTR (dm : data_model) (error : Z) : Z := to_ulong dm error.

(** A cooling device is registered when a live registry handle [cdev] leads,
    through its context pointer [p], to the live gpufreq device [dev]. *)
Definition registered {HW} (st : world HW) (cdev p : Z)
    (dev : gpufreq_cooling_device HW) : Prop :=
  cdev_devdata st cdev = Some p ∧ kmem st !! p = Some dev.

(** Two devices that differ at most in [gpufreq_state]. *)
Definition same_but_gpufreq_state {HW} (d1 d2 : gpufreq_cooling_device HW)
  : Prop :=
  id d1 = id d2 ∧ cool_dev d1 = cool_dev d2 ∧
  get_gpu_max_level d1 = get_gpu_max_level d2 ∧
  get_gpu_current_max_level d1 = get_gpu_current_max_level d2 ∧
  set_gpu_freq_idx d1 = set_gpu_freq_idx d2.

(** The name a device is published under: the registry's entry for the
    handle the device holds. *)
Definition name_of {HW} (st : world HW) (p : Z) : option string :=
  dev ← kmem st !! p;
  type <$> thermal_cdev_list (thermal st) !! cool_dev dev.

(** The id space is exhausted: every identifier of it is in use. *)
Definition exhausted (i : idr) : Prop :=
  forall j, 0 <= j < idr_space i -> j ∈ idr_used i.

(** ** Scenario data

    The frequency driver of the scenarios is a log of the levels requested
    of it, the latest first; its level queries are constant. *)
Module Scenario.

Definition log_level (level : Z) (hw : list Z) : list Z := level :: hw.

(** A device whose queries answer [max] and [cur], with or without a level
    request, which logs. *)
Definition device (max cur : option Z) (set : bool)
  : gpufreq_cooling_device (list Z) :=
  {| id := 0; cool_dev := NULL; gpufreq_state := 0;
     get_gpu_max_level := (λ m _, m) <$> max;
     get_gpu_current_max_level := (λ c _, c) <$> cur;
     set_gpu_freq_idx := if set then Some log_level else None |}.

(** That device registered: live at address 4096, holding identifier 0 and
    published under handle 1. *)
Definition one_device (max cur : option Z) (set : bool) : world (list Z) :=
  {| gpufreq_idr := {| idr_used := {[0]}; idr_space := 2 ^ 31 |};
     gpu_freq_callback := None;
     thermal :=
       {| thermal_cdev_list :=
            {[1 := {| type := "thermal-gpufreq-0"; devdata := 4096 |}]};
          thermal_free := [2%positive; 3%positive];
          thermal_refusal := ERR_PTR LP64 (- ENOMEM) |};
     kmem := {[4096 := set_cool_dev (device max cur set) 1]};
     gpu := [] |}.

(** The device at address 4096 is live but not registered, and the id space
    of two identifiers is in use entirely. *)
Definition no_identifier_left : world (list Z) :=
  {| gpufreq_idr := {| idr_used := {[0; 1]}; idr_space := 2 |};
     gpu_freq_callback := None;
     thermal :=
       {| thermal_cdev_list := ∅; thermal_free := [1%positive];
          thermal_refusal := ERR_PTR LP64 (- ENOMEM) |};
     kmem := {[4096 := device (Some 4) (Some 1) true]};
     gpu := [] |}.

(** The device at address 4096 is live but not registered, and the registry
    has no handle left; it answers [NULL] then. *)
Definition no_handle_left : world (list Z) :=
  boot (2 ^ 31) [] NULL {[4096 := device (Some 4) (Some 1) true]} [].

(** The same, with a registry that answers the error pointer for [-ENOMEM]. *)
Definition handle_refused : world (list Z) :=
  boot (2 ^ 31) [] (ERR_PTR LP64 (- ENOMEM))
    {[4096 := device (Some 4) (Some 1) true]} [].

(** Three live devices at boot. *)
Definition three_devices : world (list Z) :=
  boot (2 ^ 31) [1%positive; 2%positive; 3%positive]
    (ERR_PTR LP64 (- ENOMEM))
    {[4096 := device (Some 4) (Some 1) true;
      8192 := device (Some 4) (Some 1) true;
      12288 := device (Some 4) (Some 1) true]} [].

End Scenario.

(** ** Device allocation *)

(** What [kzalloc] and the [memset] of the whole struct leave: every field
    zero, every callback null. *)
Definition zeroed_device {HW} : gpufreq_cooling_device HW :=
  {| id := 0; cool_dev := NULL; gpufreq_state := 0;
     get_gpu_max_level := None;
     get_gpu_current_max_level := None;
     set_gpu_freq_idx := None |}.

(** [gpufreq_cooling_alloc()]: the pointer returned and the state after the
    call.  [gcdev] is what [kzalloc] answers: [NULL], or the address of
    memory that is not in use. *)
Definition gpufreq_cooling_alloc (dm : data_model) {HW} (st : world HW)
    (gcdev : Z) : Z * world HW :=
  if gcdev =? NULL then (ERR_PTR dm (- ENOMEM), st)
  else (gcdev, set_kmem st (<[gcdev := zeroed_device]> (kmem st))).

(** ** Runs of the driver *)

(** The entry points of the driver, as its users call them. *)
Inductive call {HW : Type} :=
  | call_alloc (gcdev : Z)
  | call_register (gpufreq_dev : Z)
  | call_unregister (cdev : Z)
  | call_set_cur_state (cdev state : Z)
  | call_register_gpu_freq_info (fn : option (HW -> Z)).
Arguments call : clear implicits.

(** The state after a call; [None] when the call dereferences a pointer that
    is not live. *)
Definition run (dm : data_model) {HW} (st : world HW) (c : call HW)
  : option (world HW) :=
  match c with
  | call_alloc gcdev => Some (gpufreq_cooling_alloc dm st gcdev).2
  | call_register p => snd <$> gpufreq_cooling_register st p
  | call_unregister cdev => gpufreq_cooling_unregister st cdev
  | call_set_cur_state cdev s => snd <$> gpufreq_set_cur_state dm st cdev s
  | call_register_gpu_freq_info fn => Some (register_gpu_freq_info st fn).2
  end.

(** A device is published when some registry handle has it as context. *)
Definition published {HW} (st : world HW) (p : Z) : Prop :=
  exists cdev, cdev_devdata st cdev = Some p.

(** What the environment and the callers owe: [kzalloc] answers [NULL] or
    memory that is not in use, and a device is registered once. *)
Definition allowed {HW} (st : world HW) (c : call HW) : Prop :=
  match c with
  | call_alloc gcdev => gcdev = NULL \/ kmem st !! gcdev = None
  | call_register p => ~ published st p
  | _ => True
  end.

(** The states the driver reaches from [st0]. *)
Inductive reachable (dm : data_model) {HW} (st0 : world HW)
  : world HW -> Prop :=
  | reachable_start : reachable dm st0 st0
  | reachable_call st c st' :
      reachable dm st0 st -> allowed st c -> run dm st c = Some st' ->
      reachable dm st0 st'.

(** The registry and the devices agree: a published handle is positive and
    leads to a live device that holds that handle, and the free handles are
    distinct and not published. *)
Definition registry_consistent {HW} (st : world HW) : Prop :=
  (forall cdev cd, thermal_cdev_list (thermal st) !! cdev = Some cd ->
     (exists h, cdev = Z.pos h) /\
     exists dev, kmem st !! devdata cd = Some dev /\ cool_dev dev = cdev) /\
  NoDup (thermal_free (thermal st)) /\
  (forall h, h ∈ thermal_free (thermal st) ->
     thermal_cdev_list (thermal st) !! Z.pos h = None).

(** The identifiers of the registered devices are in use and pairwise
    distinct. *)
Definition ids_consistent {HW} (st : world HW) : Prop :=
  (forall cdev p dev, registered st cdev p dev ->
     id dev ∈ idr_used (gpufreq_idr st)) /\
  (forall cdev1 p1 dev1 cdev2 p2 dev2,
     registered st cdev1 p1 dev1 -> registered st cdev2 p2 dev2 ->
     id dev1 = id dev2 -> p1 = p2).

Definition consistent {HW} (st : world HW) : Prop :=
  registry_consistent st /\ ids_consistent st.

(** Runs for the scenarios: a call sequence from a state, stopping at the
    first call that is undefined. *)
Fixpoint runs (dm : data_model) {HW} (st : world HW) (cs : list (call HW))
  : option (world HW) :=
  match cs with
  | [] => Some st
  | c :: cs => st' ← run dm st c; runs dm st' cs
  end.

(** Every call of the sequence is allowed where it is made. *)
Fixpoint runs_allowed (dm : data_model) {HW} (st : world HW)
    (cs : list (call HW)) : Prop :=
  match cs with
  | [] => True
  | c :: cs =>
      allowed st c /\
      match run dm st c with
      | Some st' => runs_allowed dm st' cs
      | None => True
      end
  end.

(** A frequency driver that applies what is requested of it: its state is
    the level in effect, out of the levels 0..3. *)
Module Governed.

Definition device : gpufreq_cooling_device Z :=
  {| id := 0; cool_dev := 1; gpufreq_state := 0;
     get_gpu_max_level := Some (fun _ => 4);
     get_gpu_current_max_level := Some (fun level => level);
     set_gpu_freq_idx := Some (fun idx _ => idx) |}.

(** The device registered, with the driver at [level]. *)
Definition at_level (level : Z) : world Z :=
  {| gpufreq_idr := {| idr_used := {[0]}; idr_space := 2 ^ 31 |};
     gpu_freq_callback := None;
     thermal :=
       {| thermal_cdev_list :=
            {[1 := {| type := "thermal-gpufreq-0"; devdata := 4096 |}]};
          thermal_free := [2%positive; 3%positive];
          thermal_refusal := ERR_PTR LP64 (- ENOMEM) |};
     kmem := {[4096 := device]};
     gpu := level |}.

(** Nothing allocated yet. *)
Definition empty : world Z :=
  boot (2 ^ 31) [1%positive; 2%positive; 3%positive]
    (ERR_PTR LP64 (- ENOMEM)) ∅ 0.

End Governed.

(** * Properties *)

(** ** Unsigned arithmetic *)

Lemma ulong_modulus_pos dm : 0 < 2 ^ BITS_PER_LONG dm.
Proof. destruct dm; reflexivity. Qed.

Lemma to_ulong_range dm z : 0 <= to_ulong dm z < 2 ^ BITS_PER_LONG dm.
Proof. apply Z.mod_pos_bound, ulong_modulus_pos. Qed.

Lemma to_ulong_small dm z :
  0 <= z < 2 ^ BITS_PER_LONG dm -> to_ulong dm z = z.
Proof. apply Z.mod_small. Qed.

Lemma to_uint_small z : 0 <= z < 2 ^ BITS_PER_INT -> to_uint z = z.
Proof. apply Z.mod_small. Qed.

Lemma ulong_sub_l dm a b :
  ulong_sub dm (to_ulong dm a) b = to_ulong dm (a - b).
Proof. unfold ulong_sub, to_ulong. apply Zminus_mod_idemp_l. Qed.

Lemma ulong_sub_r dm a b :
  ulong_sub dm a (to_ulong dm b) = to_ulong dm (a - b).
Proof. unfold ulong_sub, to_ulong. apply Zminus_mod_idemp_r. Qed.

(** The inversion [max_state - 1 - x] of the two state callbacks. *)
Lemma inversion_eq dm m x :
  ulong_sub dm (ulong_sub dm m 1) x = to_ulong dm (m - 1 - x).
Proof. unfold ulong_sub at 2. apply ulong_sub_l. Qed.

Lemma inversion_to_ulong dm m x :
  ulong_sub dm (ulong_sub dm (to_ulong dm m) 1) (to_ulong dm x)
  = to_ulong dm (m - 1 - x).
Proof.
  unfold ulong_sub, to_ulong.
  rewrite Zminus_mod_idemp_r, Zminus_mod_idemp_l.
  replace (m mod 2 ^ BITS_PER_LONG dm - 1 - x)
    with (m mod 2 ^ BITS_PER_LONG dm - (1 + x)) by lia.
  rewrite Zminus_mod_idemp_l. f_equal. lia.
Qed.

(** A negative difference down to [- 2^w] wraps by one modulus. *)
Lemma to_ulong_wrap dm z :
  - 2 ^ BITS_PER_LONG dm <= z < 0 ->
  to_ulong dm z = z + 2 ^ BITS_PER_LONG dm.
Proof.
  intros Hz. unfold to_ulong. symmetry.
  apply (Z.mod_unique_pos _ _ (-1)); lia.
Qed.

(** ** The callbacks on a registered device *)

Section Callbacks.

Variable dm : data_model.
Context {HW : Type}.
Implicit Types (st : world HW) (dev : gpufreq_cooling_device HW).

Lemma get_max_state_registered st cdev p dev state :
  registered st cdev p dev ->
  gpufreq_get_max_state dm st cdev state
  = Some (0, max_state_of dm dev (gpu st) state).
Proof.
  intros [Hc Hp]. unfold gpufreq_get_max_state.
  rewrite Hc. simpl. rewrite Hp. reflexivity.
Qed.

Lemma get_cur_state_registered st cdev p dev state :
  registered st cdev p dev ->
  gpufreq_get_cur_state dm st cdev state
  = match get_gpu_current_max_level dev with
    | Some f =>
        Some (0, ulong_sub dm (ulong_sub dm (max_state_of dm dev (gpu st) 0) 1)
                   (to_ulong dm (f (gpu st))))
    | None => Some (- EINVAL, state)
    end.
Proof.
  intros Hreg. unfold gpufreq_get_cur_state.
  rewrite (get_max_state_registered _ _ _ _ _ Hreg).
  destruct Hreg as [Hc Hp]. rewrite Hc. simpl. rewrite Hp. reflexivity.
Qed.

(** Storing into a registered device keeps it registered. *)
Lemma registered_store st cdev p dev dev' :
  registered st cdev p dev ->
  registered (set_kmem st (<[p := dev']> (kmem st))) cdev p dev'.
Proof.
  intros [Hc Hp]. split; [exact Hc|]. simpl. apply lookup_insert_eq.
Qed.

Lemma set_cur_state_registered st cdev p dev state :
  registered st cdev p dev ->
  let st1 :=
    set_kmem st (<[p := set_gpufreq_state dev (to_uint state)]> (kmem st)) in
  let level := level_of dm dev (gpu st) state in
  gpufreq_set_cur_state dm st cdev state
  = Some (0,
          if (0 <=? level) && (level <=? max_state_of dm dev (gpu st) 0) then
            match set_gpu_freq_idx dev with
            | Some f => set_gpu st1 (f (to_uint level) (gpu st))
            | None => st1
            end
          else st1).
Proof.
  intros Hreg st1 level. unfold gpufreq_set_cur_state.
  pose proof
    (registered_store _ _ _ _ (set_gpufreq_state dev (to_uint state)) Hreg)
    as Hreg1.
  destruct Hreg as [Hc Hp]. rewrite Hc. simpl. rewrite Hp. simpl.
  rewrite (get_max_state_registered _ _ _ _ _ Hreg1). simpl.
  fold st1.
  change (max_state_of dm (set_gpufreq_state dev (to_uint state)) (gpu st) 0)
    with (max_state_of dm dev (gpu st) 0).
  fold (level_of dm dev (gpu st) state). fold level.
  destruct ((0 <=? level) && (level <=? max_state_of dm dev (gpu st) 0));
    [destruct (set_gpu_freq_idx dev)|]; reflexivity.
Qed.

End Callbacks.

(** ** The state/level inversion *)

(** C6: [gpufreq_get_max_state] always returns 0 (ok).  Without a
    [get_gpu_max_level] callback the caller's cell keeps its value; with one,
    the cell receives the callback's result (as an [unsigned long], which is
    the result itself when it is in range). *)
Theorem get_max_state_always_ok dm {HW} (st : world HW) cdev p dev state :
  registered st cdev p dev ->
  exists out,
    gpufreq_get_max_state dm st cdev state = Some (0, out) /\
    (get_gpu_max_level dev = None -> out = state) /\
    (forall f, get_gpu_max_level dev = Some f ->
       out = to_ulong dm (f (gpu st)) /\
       (0 <= f (gpu st) < 2 ^ BITS_PER_LONG dm -> out = f (gpu st))).
Proof.
  intros Hreg. eexists. split; [apply (get_max_state_registered _ _ _ _ _ _ Hreg)|].
  unfold max_state_of. split.
  - intros ->. reflexivity.
  - intros f ->. split; [reflexivity|]. apply to_ulong_small.
Qed.

(** C1: with [get_gpu_max_level] returning M and
    [get_gpu_current_max_level] returning L, [gpufreq_get_cur_state] returns
    0 (ok) and the state (M - 1) - L, computed on [unsigned long]; the value
    is (M - 1) - L itself when L is a level below M.  With M = 4 and L = 1,
    [gpufreq_get_max_state] yields 4 and [gpufreq_get_cur_state] yields 2. *)
Theorem get_cur_state_inverts_level dm {HW} (st : world HW) cdev p dev
    fm fc M L state :
  registered st cdev p dev ->
  get_gpu_max_level dev = Some fm -> fm (gpu st) = M ->
  get_gpu_current_max_level dev = Some fc -> fc (gpu st) = L ->
  gpufreq_get_cur_state dm st cdev state
  = Some (0, to_ulong dm ((M - 1) - L)) /\
  (0 <= L <= M - 1 -> M - 1 < 2 ^ BITS_PER_LONG dm ->
   gpufreq_get_cur_state dm st cdev state = Some (0, (M - 1) - L)) /\
  (M = 4 -> L = 1 ->
   gpufreq_get_max_state dm st cdev state = Some (0, 4) /\
   gpufreq_get_cur_state dm st cdev state = Some (0, 2)).
Proof.
  intros Hreg Hfm HM Hfc HL.
  assert (Hcur : gpufreq_get_cur_state dm st cdev state
                 = Some (0, to_ulong dm ((M - 1) - L))).
  { rewrite (get_cur_state_registered _ _ _ _ _ _ Hreg), Hfc.
    unfold max_state_of. rewrite Hfm, HM, HL.
    by rewrite inversion_to_ulong. }
  split; [exact Hcur|]. split.
  - intros HLM Hlt. rewrite Hcur, to_ulong_small; [done|lia].
  - intros -> ->. split.
    + rewrite (get_max_state_registered _ _ _ _ _ _ Hreg).
      unfold max_state_of. rewrite Hfm, HM. by destruct dm.
    + rewrite Hcur. by destruct dm.
Qed.

(** C10: without a [get_gpu_max_level] callback, but with
    [get_gpu_current_max_level] returning L, [gpufreq_get_cur_state] still
    returns 0 (ok): [max_state] stays 0 and the state is (0 - 1) - L on
    [unsigned long], which is (2^w - 1) - L for L in range: not an error,
    and not 0 unless L is the largest [unsigned long]. *)
Theorem get_cur_state_without_max_wraps dm {HW} (st : world HW) cdev p dev
    fc L state :
  registered st cdev p dev ->
  get_gpu_max_level dev = None ->
  get_gpu_current_max_level dev = Some fc -> fc (gpu st) = L ->
  gpufreq_get_cur_state dm st cdev state
  = Some (0, to_ulong dm ((0 - 1) - L)) /\
  (0 <= L < 2 ^ BITS_PER_LONG dm ->
   gpufreq_get_cur_state dm st cdev state
   = Some (0, (2 ^ BITS_PER_LONG dm - 1) - L)) /\
  (0 <= L < 2 ^ BITS_PER_LONG dm - 1 ->
   gpufreq_get_cur_state dm st cdev state <> Some (0, 0)).
Proof.
  intros Hreg Hfm Hfc HL.
  assert (Hcur : gpufreq_get_cur_state dm st cdev state
                 = Some (0, to_ulong dm ((0 - 1) - L))).
  { rewrite (get_cur_state_registered _ _ _ _ _ _ Hreg), Hfc.
    unfold max_state_of. rewrite Hfm, HL.
    rewrite inversion_eq. do 2 f_equal. exact (ulong_sub_r dm (0 - 1) L). }
  assert (Hwrap : 0 <= L < 2 ^ BITS_PER_LONG dm ->
                  to_ulong dm ((0 - 1) - L) = (2 ^ BITS_PER_LONG dm - 1) - L).
  { intros HLr. rewrite to_ulong_wrap; lia. }
  split; [exact Hcur|]. split.
  - intros HLr. by rewrite Hcur, Hwrap.
  - intros HLr. rewrite Hcur, Hwrap by lia. intros [= Heq]. lia.
Qed.

(** C9: [gpufreq_state] is never read by the queries: on two registered
    devices that differ at most in [gpufreq_state], over the same driver
    state, [gpufreq_get_max_state] and [gpufreq_get_cur_state] return the
    same status and the same state. *)
Theorem queries_ignore_gpufreq_state dm {HW} (st1 st2 : world HW)
    cdev1 p1 dev1 cdev2 p2 dev2 state :
  registered st1 cdev1 p1 dev1 ->
  registered st2 cdev2 p2 dev2 ->
  same_but_gpufreq_state dev1 dev2 ->
  gpu st1 = gpu st2 ->
  gpufreq_get_max_state dm st1 cdev1 state
  = gpufreq_get_max_state dm st2 cdev2 state /\
  gpufreq_get_cur_state dm st1 cdev1 state
  = gpufreq_get_cur_state dm st2 cdev2 state.
Proof.
  intros Hreg1 Hreg2 (_ & _ & Hmax & Hcur & _) Hhw.
  rewrite (get_max_state_registered _ _ _ _ _ _ Hreg1).
  rewrite (get_max_state_registered _ _ _ _ _ _ Hreg2).
  rewrite (get_cur_state_registered _ _ _ _ _ _ Hreg1).
  rewrite (get_cur_state_registered _ _ _ _ _ _ Hreg2).
  unfold max_state_of. by rewrite Hmax, Hcur, Hhw.
Qed.

(** C5, amended: on every registered device and for every request s,
    [gpufreq_set_cur_state] returns 0 (ok) and has stored the request in
    [gpufreq_state] without checking it against any bound, whatever the
    callbacks and whatever level s maps to.  The field has the width of an
    [int]: what is stored is s cut to 32 bits, s mod 2^32, which is s itself
    for s below 2^32, and so for every s where [unsigned long] has 32
    bits. *)
Theorem set_cur_state_records_request dm {HW} (st : world HW) cdev p dev s :
  registered st cdev p dev ->
  exists st',
    gpufreq_set_cur_state dm st cdev s = Some (0, st') /\
    kmem st' !! p = Some (set_gpufreq_state dev (to_uint s)) /\
    gpufreq_state <$> kmem st' !! p = Some (s mod 2 ^ BITS_PER_INT) /\
    (0 <= s < 2 ^ BITS_PER_INT ->
     gpufreq_state <$> kmem st' !! p = Some s) /\
    (dm = ILP32 -> 0 <= s < 2 ^ BITS_PER_LONG dm ->
     gpufreq_state <$> kmem st' !! p = Some s).
Proof.
  intros Hreg. eexists. split.
  { apply (set_cur_state_registered _ _ _ _ _ _ Hreg). }
  assert (forall st' : world HW,
            kmem st' = <[p := set_gpufreq_state dev (to_uint s)]> (kmem st) ->
            kmem st' !! p = Some (set_gpufreq_state dev (to_uint s)) /\
            gpufreq_state <$> kmem st' !! p = Some (s mod 2 ^ BITS_PER_INT) /\
            (0 <= s < 2 ^ BITS_PER_INT ->
             gpufreq_state <$> kmem st' !! p = Some s) /\
            (dm = ILP32 -> 0 <= s < 2 ^ BITS_PER_LONG dm ->
             gpufreq_state <$> kmem st' !! p = Some s)) as Hstored.
  { intros st' ->. rewrite lookup_insert_eq. simpl.
    split; [reflexivity|]. split; [reflexivity|]. split.
    - intros Hs. by rewrite to_uint_small.
    - intros -> Hs. by rewrite to_uint_small. }
  destruct (_ && _); [destruct (set_gpu_freq_idx dev)|]; by apply Hstored.
Qed.

(** The level of a request against a reported maximum M. *)
Lemma level_of_max dm {HW} (dev : gpufreq_cooling_device HW) fm hw M s :
  get_gpu_max_level dev = Some fm -> fm hw = M ->
  0 <= M < 2 ^ BITS_PER_LONG dm ->
  max_state_of dm dev hw 0 = M /\
  level_of dm dev hw s = to_ulong dm (M - 1 - s).
Proof.
  intros Hfm HM Hrange. unfold level_of, max_state_of.
  rewrite Hfm, HM, to_ulong_small by done. by rewrite inversion_eq.
Qed.

(** C2, amended: on a registered device with [set_gpu_freq_idx] present and
    [get_gpu_max_level] returning M, [gpufreq_set_cur_state(s)] with
    M < s < 2^w - 1 does not call [set_gpu_freq_idx]: the level M - 1 - s
    wraps modulo 2^w to a value above [max_state] and is dropped.  When
    M >= 1, [gpufreq_set_cur_state(0)] calls it with level M - 1 (passed as
    an [unsigned int]), and [gpufreq_set_cur_state(M - 1)] calls it with
    level 0. *)
Theorem set_cur_state_boundaries dm {HW} (st : world HW) cdev p dev fm f M :
  registered st cdev p dev ->
  set_gpu_freq_idx dev = Some f ->
  get_gpu_max_level dev = Some fm -> fm (gpu st) = M ->
  0 <= M < 2 ^ BITS_PER_LONG dm ->
  (forall s, M < s < 2 ^ BITS_PER_LONG dm - 1 ->
     level_of dm dev (gpu st) s = M - 1 - s + 2 ^ BITS_PER_LONG dm /\
     exists st', gpufreq_set_cur_state dm st cdev s = Some (0, st') /\
                 gpu st' = gpu st) /\
  (1 <= M ->
     (exists st', gpufreq_set_cur_state dm st cdev 0 = Some (0, st') /\
                  gpu st' = f (to_uint (M - 1)) (gpu st)) /\
     (M <= 2 ^ BITS_PER_INT -> to_uint (M - 1) = M - 1) /\
     (exists st', gpufreq_set_cur_state dm st cdev (M - 1) = Some (0, st') /\
                  gpu st' = f 0 (gpu st))).
Proof.
  intros Hreg Hset Hfm HM Hrange.
  pose proof (fun s => set_cur_state_registered dm _ _ _ _ s Hreg) as Hrun.
  cbv zeta in Hrun. split.
  - intros s Hs.
    destruct (level_of_max dm dev fm (gpu st) M s Hfm HM Hrange) as [Hmax Hlev].
    rewrite to_ulong_wrap in Hlev by lia. split; [exact Hlev|].
    eexists. split; [apply Hrun|]. rewrite Hmax, Hlev.
    replace (M - 1 - s + 2 ^ BITS_PER_LONG dm <=? M) with false
      by (symmetry; apply Z.leb_gt; lia).
    by rewrite andb_false_r.
  - intros HM1. split; [|split].
    + destruct (level_of_max dm dev fm (gpu st) M 0 Hfm HM Hrange)
        as [Hmax Hlev].
      rewrite to_ulong_small in Hlev by lia.
      eexists. split; [apply Hrun|]. rewrite Hmax, Hlev, Hset.
      replace ((0 <=? M - 1 - 0) && (M - 1 - 0 <=? M)) with true
        by (symmetry; apply andb_true_intro; split; apply Z.leb_le; lia).
      simpl. f_equal. f_equal. lia.
    + intros HMi. apply to_uint_small. lia.
    + destruct (level_of_max dm dev fm (gpu st) M (M - 1) Hfm HM Hrange)
        as [Hmax Hlev].
      replace (M - 1 - (M - 1)) with 0 in Hlev by lia.
      rewrite to_ulong_small in Hlev by (pose proof (ulong_modulus_pos dm); lia).
      eexists. split; [apply Hrun|]. rewrite Hmax, Hlev, Hset.
      replace ((0 <=? 0) && (0 <=? M)) with true
        by (symmetry; apply andb_true_intro; split; apply Z.leb_le; lia).
      reflexivity.
Qed.

(** ** The identifier allocator *)

Lemma first_fit_Some used k n j :
  first_fit used k n = Some j ->
  k <= j < k + Z.of_nat n /\ (j ∉ used) /\ forall i, k <= i < j -> i ∈ used.
Proof.
  revert k. induction n as [|n IH]; intros k; simpl; [discriminate|].
  destruct (decide (k ∈ used)) as [Hin|Hout].
  - intros Hj. destruct (IH _ Hj) as (Hr & Hfree & Hbelow).
    split; [lia|]. split; [exact Hfree|].
    intros i Hi. destruct (decide (i = k)) as [->|Hne]; [exact Hin|].
    apply Hbelow. lia.
  - intros [= <-]. split; [lia|]. split; [exact Hout|]. intros i Hi. lia.
Qed.

Lemma first_fit_None used k n :
  first_fit used k n = None ->
  forall i, k <= i < k + Z.of_nat n -> i ∈ used.
Proof.
  revert k. induction n as [|n IH]; intros k; simpl; [intros _ i Hi; lia|].
  destruct (decide (k ∈ used)) as [Hin|Hout]; [|discriminate].
  intros Hnone i Hi. destruct (decide (i = k)) as [->|Hne]; [exact Hin|].
  apply (IH _ Hnone). lia.
Qed.

Lemma first_fit_least used k n j :
  k <= j < k + Z.of_nat n -> j ∉ used ->
  (forall i, k <= i < j -> i ∈ used) ->
  first_fit used k n = Some j.
Proof.
  intros Hr Hfree Hbelow.
  destruct (first_fit used k n) as [j'|] eqn:Hff.
  - destruct (first_fit_Some _ _ _ _ Hff) as (Hr' & Hfree' & Hbelow').
    f_equal. destruct (Z.lt_trichotomy j j') as [Hlt|[Heq|Hgt]]; [|exact (eq_sym Heq)|].
    + exfalso. apply Hfree, Hbelow'. lia.
    + exfalso. apply Hfree', Hbelow. lia.
  - exfalso. apply Hfree, (first_fit_None _ _ _ Hff). lia.
Qed.

(** A set that holds the first [n] identifiers has at least [n] elements. *)
Lemma prefix_used_size (used : gset Z) (n : nat) :
  (forall i, 0 <= i < Z.of_nat n -> i ∈ used) -> (n <= size used)%nat.
Proof.
  intros Hall.
  assert (list_to_set (seqZ 0 (Z.of_nat n)) ⊆ used) as Hsub.
  { intros i Hi. apply elem_of_list_to_set, elem_of_seqZ in Hi.
    apply Hall. lia. }
  apply subseteq_size in Hsub.
  rewrite size_list_to_set, length_seqZ in Hsub by apply NoDup_seqZ.
  lia.
Qed.

(** [idr_alloc] is first fit: a result that is not negative is the least
    identifier that was free, it lies in the id space, and it is in use
    afterwards. *)
Lemma idr_alloc_ok i k i' :
  idr_alloc i = (k, i') -> 0 <= k ->
  k < idr_space i /\ (k ∉ idr_used i) /\
  (forall j, 0 <= j < k -> j ∈ idr_used i) /\
  i' = {| idr_used := {[k]} ∪ idr_used i; idr_space := idr_space i |}.
Proof.
  unfold idr_alloc.
  destruct (first_fit _ _ _) as [j|] eqn:Hff.
  - intros [= <- <-] _.
    destruct (first_fit_Some _ _ _ _ Hff) as (Hr & Hfree & Hbelow).
    split; [lia|]. split; [exact Hfree|]. split; [exact Hbelow|reflexivity].
  - intros [= <- _]. unfold ENOSPC. lia.
Qed.

(** [idr_alloc] fails only when the id space is full, and then leaves the
    allocator as it was. *)
Lemma idr_alloc_fail i k i' :
  idr_alloc i = (k, i') -> k < 0 ->
  k = - ENOSPC /\ i' = i /\ forall j, 0 <= j < idr_space i -> j ∈ idr_used i.
Proof.
  unfold idr_alloc.
  destruct (first_fit _ _ _) as [j|] eqn:Hff.
  - intros [= <- _] Hneg.
    destruct (first_fit_Some _ _ _ _ Hff) as (Hr & _). lia.
  - intros [= <- <-] _. split; [reflexivity|]. split; [reflexivity|].
    pose proof (first_fit_None _ _ _ Hff) as Hall.
    destruct (Z.le_gt_cases (idr_space i) (Z.of_nat (size (idr_used i))))
      as [Hle|Hgt].
    + intros j Hj. apply Hall. lia.
    + exfalso.
      assert (S (size (idr_used i)) <= size (idr_used i))%nat; [|lia].
      apply prefix_used_size. intros j Hj. apply Hall. lia.
Qed.

Lemma idr_alloc_least i k :
  0 <= k < idr_space i -> k ∉ idr_used i ->
  (forall j, 0 <= j < k -> j ∈ idr_used i) ->
  idr_alloc i
  = (k, {| idr_used := {[k]} ∪ idr_used i; idr_space := idr_space i |}).
Proof.
  intros Hr Hfree Hbelow. unfold idr_alloc.
  assert (Z.to_nat k <= size (idr_used i))%nat as Hsize.
  { apply prefix_used_size. intros j Hj. apply Hbelow. lia. }
  rewrite (first_fit_least _ _ _ k); [reflexivity| |exact Hfree|exact Hbelow].
  lia.
Qed.

Lemma idr_alloc_full i :
  (forall j, 0 <= j < idr_space i -> j ∈ idr_used i) ->
  idr_alloc i = (- ENOSPC, i).
Proof.
  intros Hfull. unfold idr_alloc.
  destruct (first_fit _ _ _) as [j|] eqn:Hff; [|reflexivity].
  destruct (first_fit_Some _ _ _ _ Hff) as (Hr & Hfree & _).
  exfalso. apply Hfree, Hfull. lia.
Qed.

(** Releasing the identifier just allocated restores the allocator. *)
Lemma idr_remove_alloc i k i' :
  idr_alloc i = (k, i') -> 0 <= k -> idr_remove i' k = i.
Proof.
  intros Halloc Hk.
  destruct (idr_alloc_ok _ _ _ Halloc Hk) as (_ & Hfree & _ & ->).
  unfold idr_remove. destruct i as [used space]. simpl in *.
  f_equal. apply set_eq. intros x.
  rewrite elem_of_difference, elem_of_union, !elem_of_singleton.
  split; [intros [[->|Hx] Hne]; done|].
  intros Hx. split; [by right|]. by intros ->.
Qed.

Lemma get_idr_ok i k i' :
  idr_alloc i = (k, i') -> 0 <= k -> get_idr i = (0, i', Some k).
Proof.
  intros Halloc Hk. unfold get_idr. rewrite Halloc.
  by replace (k <? 0) with false by (symmetry; apply Z.ltb_ge; lia).
Qed.

Lemma get_idr_full i :
  (forall j, 0 <= j < idr_space i -> j ∈ idr_used i) ->
  get_idr i = (- ENOSPC, i, None).
Proof. intros Hfull. unfold get_idr. by rewrite (idr_alloc_full _ Hfull). Qed.

(** ** The registration protocol *)

Lemma thermal_register_NULL reg name p :
  (thermal_cooling_device_register reg name p).1 = NULL ->
  thermal_cooling_device_register reg name p = (NULL, reg).
Proof.
  unfold thermal_cooling_device_register.
  destruct (thermal_free reg); simpl; [|discriminate].
  by intros ->.
Qed.

Lemma kfree_after_store {HW} (st : world HW) p dev :
  kfree (set_kmem st (<[p := dev]> (kmem st))) p = kfree st p.
Proof.
  unfold kfree, set_kmem. simpl. by rewrite delete_insert_eq.
Qed.

Lemma set_gpufreq_idr_id {HW} (st : world HW) :
  set_gpufreq_idr st (gpufreq_idr st) = st.
Proof. by destruct st. Qed.

(** Registration when the allocator has no identifier left. *)
Lemma register_exhausted {HW} (st : world HW) p dev :
  kmem st !! p = Some dev ->
  exhausted (gpufreq_idr st) ->
  gpufreq_cooling_register st p = Some (- EINVAL, kfree st p).
Proof.
  intros Hp Hfull. unfold gpufreq_cooling_register.
  rewrite Hp. simpl. rewrite (get_idr_full _ Hfull). simpl.
  by rewrite set_gpufreq_idr_id, kfree_after_store.
Qed.

(** Registration when the registry refuses the device. *)
Lemma register_publish_failed {HW} (st : world HW) p dev k i' :
  kmem st !! p = Some dev ->
  idr_alloc (gpufreq_idr st) = (k, i') -> 0 <= k ->
  (thermal_cooling_device_register (thermal st) (dev_name k) p).1 = NULL ->
  gpufreq_cooling_register st p = Some (- EINVAL, kfree st p).
Proof.
  intros Hp Halloc Hk Hpub. unfold gpufreq_cooling_register.
  rewrite Hp. simpl. rewrite (get_idr_ok _ _ _ Halloc Hk). simpl.
  rewrite (thermal_register_NULL _ _ _ Hpub). simpl.
  unfold release_idr. rewrite (idr_remove_alloc _ _ _ Halloc Hk).
  destruct st as [i cb reg mem hw]. unfold kfree, set_kmem. simpl.
  by rewrite delete_insert_eq.
Qed.

(** Registration when both steps succeed. *)
Lemma register_ok {HW} (st : world HW) p dev k i' h rest :
  kmem st !! p = Some dev ->
  idr_alloc (gpufreq_idr st) = (k, i') -> 0 <= k ->
  thermal_free (thermal st) = h :: rest ->
  gpufreq_cooling_register st p
  = Some (0,
      {| gpufreq_idr := i';
         gpu_freq_callback := gpu_freq_callback st;
         thermal :=
           {| thermal_cdev_list :=
                <[Z.pos h := {| type := dev_name k; devdata := p |}]>
                  (thermal_cdev_list (thermal st));
              thermal_free := rest;
              thermal_refusal := thermal_refusal (thermal st) |};
         kmem :=
           <[p := set_gpufreq_state (set_cool_dev (set_id dev k) (Z.pos h)) 0]>
             (kmem st);
         gpu := gpu st |}).
Proof.
  intros Hp Halloc Hk Hfree. unfold gpufreq_cooling_register.
  rewrite Hp. simpl. rewrite (get_idr_ok _ _ _ Halloc Hk). simpl.
  unfold thermal_cooling_device_register. rewrite Hfree. simpl.
  by rewrite insert_insert_eq.
Qed.

(** Registration when the registry refuses the device with a reply that is
    not [NULL]: the reply passes the test and is kept as a handle. *)
Lemma register_refused {HW} (st : world HW) p dev k i' :
  kmem st !! p = Some dev ->
  idr_alloc (gpufreq_idr st) = (k, i') -> 0 <= k ->
  thermal_free (thermal st) = [] ->
  thermal_refusal (thermal st) <> NULL ->
  gpufreq_cooling_register st p
  = Some (0,
      {| gpufreq_idr := i';
         gpu_freq_callback := gpu_freq_callback st;
         thermal := thermal st;
         kmem :=
           <[p := set_gpufreq_state
                    (set_cool_dev (set_id dev k)
                       (thermal_refusal (thermal st))) 0]> (kmem st);
         gpu := gpu st |}).
Proof.
  intros Hp Halloc Hk Hfree Herr. unfold gpufreq_cooling_register.
  rewrite Hp. simpl. rewrite (get_idr_ok _ _ _ Halloc Hk). simpl.
  unfold thermal_cooling_device_register. rewrite Hfree. simpl.
  destruct (Z.eqb_spec (thermal_refusal (thermal st)) NULL) as [?|_]; [done|].
  by rewrite insert_insert_eq.
Qed.

(** Unregistration of a device published under the handle it holds. *)
Lemma unregister_ok {HW} (st : world HW) h name p dev :
  thermal_cdev_list (thermal st) !! Z.pos h
  = Some {| type := name; devdata := p |} ->
  kmem st !! p = Some dev ->
  cool_dev dev = Z.pos h ->
  gpufreq_cooling_unregister st (Z.pos h)
  = Some
      {| gpufreq_idr := idr_remove (gpufreq_idr st) (id dev);
         gpu_freq_callback := gpu_freq_callback st;
         thermal :=
           {| thermal_cdev_list := delete (Z.pos h) (thermal_cdev_list (thermal st));
              thermal_free := h :: thermal_free (thermal st);
              thermal_refusal := thermal_refusal (thermal st) |};
         kmem := delete p (kmem st);
         gpu := gpu st |}.
Proof.
  intros Hh Hp Hcool. unfold gpufreq_cooling_unregister, cdev_devdata.
  simpl. rewrite Hh. simpl. rewrite Hp. simpl.
  unfold thermal_cooling_device_unregister. rewrite Hcool, Hh. reflexivity.
Qed.

(** A device that registration has accepted is registered, with its
    callbacks as they were, under the handle it now holds. *)
Lemma register_registers {HW} (st : world HW) p dev k i' h rest :
  kmem st !! p = Some dev ->
  idr_alloc (gpufreq_idr st) = (k, i') -> 0 <= k ->
  thermal_free (thermal st) = h :: rest ->
  exists st',
    gpufreq_cooling_register st p = Some (0, st') /\
    registered st' (Z.pos h) p
      (set_gpufreq_state (set_cool_dev (set_id dev k) (Z.pos h)) 0) /\
    name_of st' p = Some (dev_name k).
Proof.
  intros Hp Halloc Hk Hfree. eexists. split.
  { exact (register_ok _ _ _ _ _ _ _ Hp Halloc Hk Hfree). }
  split.
  - split.
    + unfold cdev_devdata. simpl. by rewrite lookup_insert_eq.
    + simpl. by rewrite lookup_insert_eq.
  - unfold name_of. simpl. rewrite lookup_insert_eq. simpl.
    by rewrite lookup_insert_eq.
Qed.

(** C3, amended: when the allocator is exhausted,
    [gpufreq_cooling_register] returns [-EINVAL] and leaves no partial state:
    the allocator, the registry, the callback slot and the driver are as
    before and nothing is published for the device.  The device is not left
    to the caller: registration has freed it with [kfree]. *)
Theorem register_exhausted_frees_device {HW} (st : world HW) p dev :
  kmem st !! p = Some dev ->
  exhausted (gpufreq_idr st) ->
  exists st',
    gpufreq_cooling_register st p = Some (- EINVAL, st') /\
    gpufreq_idr st' = gpufreq_idr st /\
    thermal st' = thermal st /\
    gpu_freq_callback st' = gpu_freq_callback st /\
    gpu st' = gpu st /\
    kmem st' = delete p (kmem st) /\
    kmem st' !! p = None.
Proof.
  intros Hp Hfull. exists (kfree st p).
  split; [exact (register_exhausted _ _ _ Hp Hfull)|].
  repeat (split; [reflexivity|]). simpl. apply lookup_delete_eq.
Qed.

(** X16: when an identifier is allocated but the registry refuses the
    device with a [NULL] handle, [gpufreq_cooling_register] releases the
    identifier, so that the allocator is back in its state before the call,
    reports the failure [-EINVAL], and leaves the device unregistered: the
    registry is as it was and the device is gone. *)
Theorem register_publish_failure_releases_id {HW} (st : world HW)
    p dev k i' :
  kmem st !! p = Some dev ->
  idr_alloc (gpufreq_idr st) = (k, i') -> 0 <= k ->
  (thermal_cooling_device_register (thermal st) (dev_name k) p).1 = NULL ->
  exists st',
    gpufreq_cooling_register st p = Some (- EINVAL, st') /\
    - EINVAL <> 0 /\
    k ∈ idr_used i' /\
    (k ∉ idr_used (gpufreq_idr st')) /\
    gpufreq_idr st' = gpufreq_idr st /\
    thermal st' = thermal st /\
    kmem st' !! p = None.
Proof.
  intros Hp Halloc Hk Hpub. exists (kfree st p).
  split; [exact (register_publish_failed _ _ _ _ _ Hp Halloc Hk Hpub)|].
  destruct (idr_alloc_ok _ _ _ Halloc Hk) as (_ & Hfree & _ & ->).
  split; [discriminate|]. split; [simpl; apply elem_of_union_l, elem_of_singleton; reflexivity|].
  split; [exact Hfree|]. do 2 (split; [reflexivity|]).
  simpl. apply lookup_delete_eq.
Qed.

(** C4: a registry that reports a failed publication by an error pointer
    is not heard: [gpufreq_cooling_register] tests the reply against [NULL]
    only.  With an identifier allocated and the device refused by an error
    pointer, it returns 0, the identifier stays in use, so that the
    allocator is not back in its state before the call, and the device
    stays live with the error pointer for a handle and nothing published
    for it. *)
Theorem register_error_pointer_keeps_id {HW} (st : world HW) p dev k i' :
  kmem st !! p = Some dev ->
  idr_alloc (gpufreq_idr st) = (k, i') -> 0 <= k ->
  thermal_free (thermal st) = [] ->
  thermal_refusal (thermal st) <> NULL ->
  (thermal_cooling_device_register (thermal st) (dev_name k) p
   = (thermal_refusal (thermal st), thermal st)) /\
  exists st',
    gpufreq_cooling_register st p = Some (0, st') /\
    gpufreq_idr st' = i' /\
    k ∈ idr_used (gpufreq_idr st') /\
    gpufreq_idr st' <> gpufreq_idr st /\
    thermal st' = thermal st /\
    cool_dev <$> kmem st' !! p = Some (thermal_refusal (thermal st)) /\
    (~ published st p -> ~ published st' p).
Proof.
  intros Hp Halloc Hk Hfree Herr. split.
  { unfold thermal_cooling_device_register. by rewrite Hfree. }
  eexists. split; [exact (register_refused _ _ _ _ _ Hp Halloc Hk Hfree Herr)|].
  destruct (idr_alloc_ok _ _ _ Halloc Hk) as (_ & Hfresh & _ & ->).
  split; [reflexivity|]. simpl.
  assert (k ∈ {[k]} ∪ idr_used (gpufreq_idr st)) as Hin
    by (apply elem_of_union_l, elem_of_singleton; reflexivity).
  split; [exact Hin|]. split.
  { intros Heq. apply Hfresh. rewrite <- Heq. exact Hin. }
  split; [reflexivity|]. split; [by rewrite lookup_insert_eq|].
  intros Hnot [c Hc]. apply Hnot. by exists c.
Qed.

(** An identifier that has been released can be allocated at once: the next
    allocation succeeds, with that identifier or a smaller free one. *)
Lemma idr_release_reusable i v :
  0 <= v < idr_space i ->
  exists k i', idr_alloc (idr_remove i v) = (k, i') /\ 0 <= k <= v.
Proof.
  intros Hv. destruct (idr_alloc (idr_remove i v)) as [k i'] eqn:Halloc.
  exists k, i'. split; [reflexivity|].
  assert (v ∉ idr_used (idr_remove i v)) as Hfree.
  { simpl. rewrite elem_of_difference, elem_of_singleton. by intros [_ []]. }
  destruct (Z.lt_ge_cases k 0) as [Hneg|Hpos].
  - destruct (idr_alloc_fail _ _ _ Halloc Hneg) as (_ & _ & Hfull).
    exfalso. apply Hfree, Hfull. exact Hv.
  - destruct (idr_alloc_ok _ _ _ Halloc Hpos) as (_ & _ & Hbelow & _).
    split; [exact Hpos|]. destruct (Z.le_gt_cases k v) as [Hle|Hgt]; [exact Hle|].
    exfalso. apply Hfree, Hbelow. lia.
Qed.

(** C8: [register_gpu_freq_info] always returns 0.  A callback that is not
    null overwrites the slot; a null one leaves the whole state, and so the
    slot, unchanged: after installing A and then null, the slot still holds
    A, and a read through it yields A's value. *)
Theorem register_gpu_freq_info_never_clears {HW} (st : world HW) :
  (forall fn, (register_gpu_freq_info st fn).1 = 0) /\
  (forall f, gpu_freq_callback (register_gpu_freq_info st (Some f)).2 = Some f) /\
  (register_gpu_freq_info st None).2 = st /\
  (forall A,
     let st1 := (register_gpu_freq_info st (Some A)).2 in
     let st2 := (register_gpu_freq_info st1 None).2 in
     gpu_freq_callback st2 = Some A /\
     (fun f => f (gpu st2)) <$> gpu_freq_callback st2 = Some (A (gpu st))).
Proof.
  split; [intros fn; reflexivity|].
  split; [intros f; reflexivity|].
  split; [reflexivity|].
  intros A. split; reflexivity.
Qed.

(** C7: the allocator is first fit and a released identifier is reusable at
    once.  From an empty allocator, two registrations in sequence publish
    "thermal-gpufreq-0" and "thermal-gpufreq-1"; unregistering the first
    device releases identifier 0, and a third registration receives
    identifier 0 again. *)
Theorem identifiers_first_fit_reused {HW} (st : world HW)
    p1 p2 p3 d1 d2 d3 h1 h2 rest :
  idr_used (gpufreq_idr st) = ∅ -> 2 <= idr_space (gpufreq_idr st) ->
  thermal_free (thermal st) = h1 :: h2 :: rest -> h1 <> h2 ->
  kmem st !! p1 = Some d1 -> kmem st !! p2 = Some d2 ->
  kmem st !! p3 = Some d3 ->
  p1 <> p2 -> p1 <> p3 -> p2 <> p3 ->
  (forall i k i', idr_alloc i = (k, i') -> 0 <= k ->
     (k ∉ idr_used i) /\ forall j, 0 <= j < k -> j ∈ idr_used i) /\
  (forall i v, 0 <= v < idr_space i ->
     exists k i', idr_alloc (idr_remove i v) = (k, i') /\ 0 <= k <= v) /\
  exists st1 st2 st3 st4,
    gpufreq_cooling_register st p1 = Some (0, st1) /\
    name_of st1 p1 = Some "thermal-gpufreq-0"%string /\
    gpufreq_cooling_register st1 p2 = Some (0, st2) /\
    name_of st2 p1 = Some "thermal-gpufreq-0"%string /\
    name_of st2 p2 = Some "thermal-gpufreq-1"%string /\
    cool_dev <$> kmem st2 !! p1 = Some (Z.pos h1) /\
    gpufreq_cooling_unregister st2 (Z.pos h1) = Some st3 /\
    (0 ∉ idr_used (gpufreq_idr st3)) /\
    gpufreq_cooling_register st3 p3 = Some (0, st4) /\
    id <$> kmem st4 !! p3 = Some 0 /\
    name_of st4 p3 = Some "thermal-gpufreq-0"%string.
Proof.
  intros Hused Hspace Hfree Hh Hp1 Hp2 Hp3 H12 H13 H23.
  split.
  { intros i k i' Halloc Hk.
    destruct (idr_alloc_ok _ _ _ Halloc Hk) as (_ & Hf & Hb & _). by split. }
  split; [exact idr_release_reusable|].
  destruct st as [[used space] cb [cdevs free refusal] mem hw]. simpl in *. subst.
  (* first registration: identifier 0 *)
  assert (Ha1 : idr_alloc {| idr_used := ∅; idr_space := space |}
                = (0, {| idr_used := {[0]} ∪ ∅; idr_space := space |})).
  { apply idr_alloc_least; simpl; [lia|apply not_elem_of_empty|].
    intros j Hj; lia. }
  eexists. eexists. eexists. eexists.
  split. { eapply register_ok; simpl; [exact Hp1|exact Ha1|lia|reflexivity]. }
  split. { unfold name_of. simpl. rewrite lookup_insert_eq. simpl.
           by rewrite lookup_insert_eq. }
  (* second registration: identifier 1 *)
  assert (Ha2 : idr_alloc {| idr_used := {[0]} ∪ ∅; idr_space := space |}
                = (1, {| idr_used := {[1]} ∪ ({[0]} ∪ ∅);
                         idr_space := space |})).
  { apply idr_alloc_least; simpl; [lia| |].
    - rewrite elem_of_union, elem_of_singleton, elem_of_empty.
      intros [?|[]]. lia.
    - intros j Hj. apply elem_of_union_l, elem_of_singleton. lia. }
  split. { eapply register_ok; simpl;
             [rewrite lookup_insert_ne by done; exact Hp2
             |exact Ha2|lia|reflexivity]. }
  assert (Z.pos h2 <> Z.pos h1) as Hh21 by congruence.
  split. { unfold name_of. simpl.
           rewrite lookup_insert_ne, lookup_insert_eq by done. simpl.
           by rewrite lookup_insert_ne, lookup_insert_eq by done. }
  split. { unfold name_of. simpl. rewrite lookup_insert_eq. simpl.
           by rewrite lookup_insert_eq. }
  split. { simpl. by rewrite lookup_insert_ne, lookup_insert_eq by done. }
  (* the first device is unregistered: identifier 0 is released *)
  split. { eapply unregister_ok; simpl.
           - rewrite lookup_insert_ne, lookup_insert_eq by done. reflexivity.
           - rewrite lookup_insert_ne, lookup_insert_eq by done. reflexivity.
           - reflexivity. }
  split. { simpl. rewrite elem_of_difference, elem_of_singleton.
           by intros [_ []]. }
  (* third registration: identifier 0 again *)
  assert (Ha3 : idr_alloc
                  {| idr_used := ({[1]} ∪ ({[0]} ∪ ∅)) ∖ {[0]};
                     idr_space := space |}
                = (0, {| idr_used := {[0]} ∪ ({[1]} ∪ ({[0]} ∪ ∅)) ∖ {[0]};
                         idr_space := space |})).
  { apply idr_alloc_least; simpl; [lia| |intros j Hj; lia].
    rewrite elem_of_difference, elem_of_singleton. by intros [_ []]. }
  split. { eapply register_ok; simpl;
             [rewrite lookup_delete_ne, !lookup_insert_ne by done; exact Hp3
             |exact Ha3|lia|reflexivity]. }
  split. { simpl. by rewrite lookup_insert_eq. }
  unfold name_of. simpl. rewrite lookup_insert_eq. simpl.
  by rewrite lookup_insert_eq.
Qed.

(** * The scenarios of the specification *)

Module ScenarioFacts.
Import Scenario.

Lemma one_device_registered max cur set :
  registered (one_device max cur set) 1 4096
    (set_cool_dev (device max cur set) 1).
Proof. split; reflexivity. Defined.

(** Levels 0..3, current level 1: the maximum state is 4, the current one
    is 2. *)
Lemma get_cur_state_inverts_level_scenario :
  gpufreq_get_max_state LP64 (one_device (Some 4) (Some 1) true) 1 0
  = Some (0, 4) /\
  gpufreq_get_cur_state LP64 (one_device (Some 4) (Some 1) true) 1 0
  = Some (0, 2).
Proof.
  destruct (get_cur_state_inverts_level LP64
              (one_device (Some 4) (Some 1) true) 1 4096 _
              (fun _ => 4) (fun _ => 1) 4 1 0
              (one_device_registered _ _ _)
              eq_refl eq_refl eq_refl eq_refl) as (_ & _ & Hscenario).
  exact (Hscenario eq_refl eq_refl).
Defined.

(** Without a maximum-level callback the caller's 7 comes back. *)
Lemma get_max_state_always_ok_scenario :
  gpufreq_get_max_state LP64 (one_device None (Some 1) true) 1 7
  = Some (0, 7).
Proof.
  destruct (get_max_state_always_ok LP64
              (one_device None (Some 1) true) 1 4096 _ 7
              (one_device_registered _ _ _)) as (out & Hrun & Habsent & _).
  rewrite Hrun, (Habsent eq_refl). reflexivity.
Defined.

(** Without a maximum-level callback, level 1 reads as state 2^64 - 2. *)
Lemma get_cur_state_without_max_wraps_scenario :
  gpufreq_get_cur_state LP64 (one_device None (Some 1) true) 1 0
  = Some (0, 18446744073709551614).
Proof.
  destruct (get_cur_state_without_max_wraps LP64
              (one_device None (Some 1) true) 1 4096 _ (fun _ => 1) 1 0
              (one_device_registered _ _ _) eq_refl eq_refl eq_refl)
    as (_ & Hwrap & _).
  apply Hwrap. split; [discriminate|reflexivity].
Defined.

(** The device with 9 in [gpufreq_state] answers the queries like the one
    with 0. *)
Lemma queries_ignore_gpufreq_state_scenario :
  let st1 := one_device (Some 4) (Some 1) true in
  let st2 :=
    set_kmem st1
      {[4096 := set_gpufreq_state
                  (set_cool_dev (device (Some 4) (Some 1) true) 1) 9]} in
  gpufreq_get_max_state LP64 st1 1 0 = gpufreq_get_max_state LP64 st2 1 0 /\
  gpufreq_get_cur_state LP64 st1 1 0 = gpufreq_get_cur_state LP64 st2 1 0.
Proof.
  intros st1 st2.
  apply (queries_ignore_gpufreq_state LP64 st1 st2 1 4096
           (set_cool_dev (device (Some 4) (Some 1) true) 1) 1 4096
           (set_gpufreq_state
              (set_cool_dev (device (Some 4) (Some 1) true) 1) 9) 0).
  - apply one_device_registered.
  - split; reflexivity.
  - repeat split.
  - reflexivity.
Defined.

(** A request above 2^32 is recorded cut to 32 bits, also on a device
    without a level-request callback. *)
Lemma set_cur_state_records_request_scenario :
  exists st',
    gpufreq_set_cur_state LP64 (one_device (Some 4) (Some 1) false) 1
      (2 ^ 32 + 1000)
    = Some (0, st') /\
    gpufreq_state <$> kmem st' !! 4096 = Some 1000.
Proof.
  destruct (set_cur_state_records_request LP64
              (one_device (Some 4) (Some 1) false) 1 4096 _ (2 ^ 32 + 1000)
              (one_device_registered _ _ _)) as (st' & Hrun & _ & Hstored & _).
  exists st'. split; [exact Hrun|exact Hstored].
Defined.

(** On LP64 the request 2^32 + 5 is a cooling state like any other; what
    [gpufreq_state] holds after it is 5. *)
Lemma set_cur_state_cuts_request :
  (fun r => gpufreq_state <$> kmem r.2 !! 4096) <$>
    gpufreq_set_cur_state LP64 (one_device (Some 4) (Some 1) true) 1
      (2 ^ 32 + 5)
  = Some (Some 5) /\
  0 <= 2 ^ 32 + 5 < 2 ^ BITS_PER_LONG LP64 /\
  5 <> 2 ^ 32 + 5.
Proof.
  split; [vm_compute; reflexivity|]. split; [|discriminate].
  split; [discriminate|reflexivity].
Qed.

(** With levels 0..3: state 0 requests level 3, state 3 requests level 0,
    state 5 requests nothing. *)
Lemma set_cur_state_boundaries_scenario :
  let st := one_device (Some 4) (Some 1) true in
  (exists st', gpufreq_set_cur_state LP64 st 1 5 = Some (0, st') /\
               gpu st' = []) /\
  (exists st', gpufreq_set_cur_state LP64 st 1 0 = Some (0, st') /\
               gpu st' = [3]) /\
  (exists st', gpufreq_set_cur_state LP64 st 1 3 = Some (0, st') /\
               gpu st' = [0]).
Proof.
  intros st.
  destruct (set_cur_state_boundaries LP64 st 1 4096 _ (fun _ => 4)
              log_level 4 (one_device_registered _ _ _)
              eq_refl eq_refl eq_refl
              ltac:(split; [lia|reflexivity])) as [Habove Hin].
  split.
  - apply (Habove 5). split; [lia|reflexivity].
  - destruct (Hin ltac:(lia)) as (Hzero & _ & Htop).
    split; [exact Hzero|exact Htop].
Defined.

(** The id space {0, 1} is in use: registration fails and frees the device. *)
Lemma register_exhausted_frees_device_scenario :
  exists st',
    gpufreq_cooling_register no_identifier_left 4096 = Some (- EINVAL, st') /\
    gpufreq_idr st' = gpufreq_idr no_identifier_left /\
    thermal st' = thermal no_identifier_left /\
    kmem st' !! 4096 = None.
Proof.
  destruct (register_exhausted_frees_device no_identifier_left 4096
              (device (Some 4) (Some 1) true) eq_refl) as
    (st' & Hrun & Hidr & Hreg & _ & _ & _ & Hgone).
  - intros j Hj. change (0 <= j < 2) in Hj.
    assert (j = 0 \/ j = 1) as [-> | ->] by lia; reflexivity.
  - exists st'. repeat split; assumption.
Defined.

(** No handle left in a registry that answers [NULL]: identifier 0 is
    allocated, then released again. *)
Lemma register_publish_failure_releases_id_scenario :
  exists st',
    gpufreq_cooling_register no_handle_left 4096 = Some (- EINVAL, st') /\
    gpufreq_idr st' = gpufreq_idr no_handle_left /\
    thermal st' = thermal no_handle_left.
Proof.
  destruct (register_publish_failure_releases_id no_handle_left 4096
              (device (Some 4) (Some 1) true) 0
              {| idr_used := {[0]} ∪ ∅; idr_space := 2 ^ 31 |}
              eq_refl eq_refl ltac:(lia) eq_refl)
    as (st' & Hrun & _ & _ & _ & Hidr & Hreg & _).
  exists st'. repeat split; assumption.
Defined.

(** No handle left in a registry that answers the error pointer for
    [-ENOMEM], 2^64 - 12: registration returns 0, identifier 0 stays in use
    and the device holds the error pointer. *)
Lemma register_error_pointer_keeps_id_scenario :
  exists st',
    gpufreq_cooling_register handle_refused 4096 = Some (0, st') /\
    0 ∈ idr_used (gpufreq_idr st') /\
    thermal st' = thermal handle_refused /\
    cool_dev <$> kmem st' !! 4096 = Some (2 ^ 64 - 12).
Proof.
  destruct (register_error_pointer_keeps_id handle_refused 4096
              (device (Some 4) (Some 1) true) 0
              {| idr_used := {[0]} ∪ ∅; idr_space := 2 ^ 31 |}
              eq_refl eq_refl ltac:(lia) eq_refl ltac:(discriminate))
    as (_ & st' & Hrun & _ & Hin & _ & Hreg & Hcool & _).
  exists st'. repeat split; assumption.
Defined.

(** Three devices at addresses 4096, 8192 and 12288: the third registration
    follows the removal of the first and is named like it. *)
Lemma identifiers_first_fit_reused_scenario :
  exists st1 st2 st3 st4,
    gpufreq_cooling_register three_devices 4096 = Some (0, st1) /\
    name_of st1 4096 = Some "thermal-gpufreq-0"%string /\
    gpufreq_cooling_register st1 8192 = Some (0, st2) /\
    name_of st2 8192 = Some "thermal-gpufreq-1"%string /\
    gpufreq_cooling_unregister st2 1 = Some st3 /\
    gpufreq_cooling_register st3 12288 = Some (0, st4) /\
    id <$> kmem st4 !! 12288 = Some 0.
Proof.
  destruct (identifiers_first_fit_reused three_devices 4096 8192 12288
              (device (Some 4) (Some 1) true) (device (Some 4) (Some 1) true)
              (device (Some 4) (Some 1) true) 1%positive 2%positive
              [3%positive]
              eq_refl ltac:(vm_compute; discriminate) eq_refl
              ltac:(discriminate) eq_refl eq_refl eq_refl
              ltac:(discriminate) ltac:(discriminate) ltac:(discriminate))
    as (_ & _ & st1 & st2 & st3 & st4 & H1 & N1 & H2 & _ & N2 & _ & H3 & _
        & H4 & I4 & _).
  exists st1, st2, st3, st4. repeat split; assumption.
Defined.

(** Levels 0..3 and the largest request, 2^64 - 1, which is above the
    maximum 4: the level wraps to 4, passes the check against [max_state]
    and is requested of the driver.  And with a maximum of 0, state 0 maps
    to the level 2^64 - 1 and nothing is requested. *)
Lemma set_cur_state_largest_request_invokes :
  4 < 2 ^ 64 - 1 /\
  (fun r => gpu r.2) <$>
    gpufreq_set_cur_state LP64 (one_device (Some 4) (Some 1) true) 1
      (2 ^ 64 - 1)
  = Some [4] /\
  (fun r => gpu r.2) <$>
    gpufreq_set_cur_state LP64 (one_device (Some 0) (Some 0) true) 1 0
  = Some [].
Proof. split; [reflexivity|]. split; vm_compute; reflexivity. Qed.

(** The id space {0, 1} is in use: the device is live before the failed
    registration and freed after it. *)
Lemma register_exhausted_disposes_of_device :
  is_Some (kmem no_identifier_left !! 4096) /\
  exists st',
    gpufreq_cooling_register no_identifier_left 4096 = Some (- EINVAL, st') /\
    kmem st' !! 4096 = None /\
    ~ is_Some (kmem st' !! 4096).
Proof.
  split; [eexists; reflexivity|].
  exists (kfree no_identifier_left 4096).
  split; [vm_compute; reflexivity|]. split; [reflexivity|].
  intros [dev Hdev]. discriminate Hdev.
Qed.

End ScenarioFacts.

(** * Further properties of the driver *)

(** ** The callbacks *)

Lemma uint_within_ulong dm z :
  0 <= z < 2 ^ BITS_PER_INT -> 0 <= z < 2 ^ BITS_PER_LONG dm.
Proof.
  intros Hz. assert (2 ^ BITS_PER_INT <= 2 ^ BITS_PER_LONG dm).
  { destruct dm; vm_compute; discriminate. }
  lia.
Qed.

(** X1: [gpufreq_get_cur_state] has two outcomes: 0 when the device has a
    [get_gpu_current_max_level] callback, and [-EINVAL] with the caller's
    cell untouched when it has none, whatever [get_gpu_max_level] is. *)
Theorem get_cur_state_status dm {HW} (st : world HW) cdev p dev state :
  registered st cdev p dev ->
  exists r out,
    gpufreq_get_cur_state dm st cdev state = Some (r, out) /\
    (r = 0 \/ r = - EINVAL) /\
    (r = - EINVAL <-> get_gpu_current_max_level dev = None) /\
    (r = - EINVAL -> out = state).
Proof.
  intros Hreg. rewrite (get_cur_state_registered _ _ _ _ _ _ Hreg).
  destruct (get_gpu_current_max_level dev) as [fc|].
  - eexists _, _. split; [reflexivity|]. split; [by left|].
    split; [split; discriminate|discriminate].
  - eexists _, _. split; [reflexivity|]. split; [by right|].
    split; [split; reflexivity|reflexivity].
Qed.

(** X2: the inversion reverses the order of the levels and stays in range:
    over a maximum M, a level L in 0..M-1 reads as the state M - 1 - L in
    0..M-1, and a higher level reads as a strictly lower state. *)
Theorem cur_state_reverses_levels dm {HW} (st1 st2 : world HW)
    cdev p dev fm fc M L1 L2 :
  registered st1 cdev p dev -> registered st2 cdev p dev ->
  get_gpu_max_level dev = Some fm ->
  get_gpu_current_max_level dev = Some fc ->
  fm (gpu st1) = M -> fm (gpu st2) = M ->
  fc (gpu st1) = L1 -> fc (gpu st2) = L2 ->
  0 <= L1 < L2 -> L2 <= M - 1 -> M - 1 < 2 ^ BITS_PER_LONG dm ->
  exists s1 s2,
    gpufreq_get_cur_state dm st1 cdev 0 = Some (0, s1) /\
    gpufreq_get_cur_state dm st2 cdev 0 = Some (0, s2) /\
    s1 = M - 1 - L1 /\ s2 = M - 1 - L2 /\
    0 <= s2 < s1 /\ s1 <= M - 1.
Proof.
  intros Hreg1 Hreg2 Hfm Hfc HM1 HM2 HL1 HL2 HL HLM HMw.
  exists (M - 1 - L1), (M - 1 - L2).
  rewrite (get_cur_state_registered _ _ _ _ _ _ Hreg1).
  rewrite (get_cur_state_registered _ _ _ _ _ _ Hreg2).
  unfold max_state_of. rewrite Hfc, Hfm, HM1, HM2, HL1, HL2.
  rewrite !inversion_to_ulong, !to_ulong_small by lia.
  repeat split; lia.
Qed.

(** X3: when [gpufreq_set_cur_state] calls [set_gpu_freq_idx].  Over a
    maximum M: a state s up to M - 1 requests the level M - 1 - s; the
    largest [unsigned long] requests the level M; every other state
    requests nothing. *)
Theorem set_cur_state_invocation dm {HW} (st : world HW) cdev p dev
    fm f M s :
  registered st cdev p dev ->
  set_gpu_freq_idx dev = Some f ->
  get_gpu_max_level dev = Some fm -> fm (gpu st) = M ->
  0 <= M < 2 ^ BITS_PER_LONG dm -> 0 <= s < 2 ^ BITS_PER_LONG dm ->
  exists st',
    gpufreq_set_cur_state dm st cdev s = Some (0, st') /\
    (s <= M - 1 -> gpu st' = f (to_uint (M - 1 - s)) (gpu st)) /\
    (M <= s -> s = 2 ^ BITS_PER_LONG dm - 1 ->
     gpu st' = f (to_uint M) (gpu st)) /\
    (M <= s < 2 ^ BITS_PER_LONG dm - 1 -> gpu st' = gpu st).
Proof.
  intros Hreg Hset Hfm HM HMr Hsr.
  eexists. split; [apply (set_cur_state_registered dm _ _ _ _ s Hreg)|].
  destruct (level_of_max dm dev fm (gpu st) M s Hfm HM HMr) as [Hmax Hlev].
  rewrite Hmax, Hlev, Hset. split; [|split].
  - intros Hs. rewrite to_ulong_small by lia.
    replace ((0 <=? M - 1 - s) && (M - 1 - s <=? M)) with true
      by (symmetry; apply andb_true_intro; split; apply Z.leb_le; lia).
    reflexivity.
  - intros HMs ->. rewrite to_ulong_wrap by lia.
    replace (M - 1 - (2 ^ BITS_PER_LONG dm - 1) + 2 ^ BITS_PER_LONG dm)
      with M by lia.
    replace ((0 <=? M) && (M <=? M)) with true
      by (symmetry; apply andb_true_intro; split; apply Z.leb_le; lia).
    reflexivity.
  - intros Hs. rewrite to_ulong_wrap by lia.
    replace (M - 1 - s + 2 ^ BITS_PER_LONG dm <=? M) with false
      by (symmetry; apply Z.leb_gt; lia).
    by rewrite andb_false_r.
Qed.

(** X4: [gpufreq_set_cur_state] touches the [gpufreq_state] of its device,
    which receives the request cut to the width of an [int], and, through
    the callback, the driver, and nothing else: the allocator, the registry,
    the callback slot and every other device are as before; without a
    [set_gpu_freq_idx] callback the driver is as before too. *)
Theorem set_cur_state_frame dm {HW} (st : world HW) cdev p dev s :
  registered st cdev p dev ->
  exists st',
    gpufreq_set_cur_state dm st cdev s = Some (0, st') /\
    gpufreq_idr st' = gpufreq_idr st /\
    thermal st' = thermal st /\
    gpu_freq_callback st' = gpu_freq_callback st /\
    kmem st' = <[p := set_gpufreq_state dev (to_uint s)]> (kmem st) /\
    (forall q, q <> p -> kmem st' !! q = kmem st !! q) /\
    (set_gpu_freq_idx dev = None -> gpu st' = gpu st).
Proof.
  intros Hreg.
  eexists. split; [apply (set_cur_state_registered dm _ _ _ _ s Hreg)|].
  destruct (_ && _); [destruct (set_gpu_freq_idx dev)|]; simpl;
    (repeat (split; [reflexivity|])); (split; [|done]);
    intros q Hq; by rewrite lookup_insert_ne.
Qed.

(** X5: round trip through a driver that applies what is requested of it
    (the current level is the level last set, the maximum is fixed): after
    [gpufreq_set_cur_state(s)] for a state s in 0..M-1,
    [gpufreq_get_cur_state] reads s back. *)
Theorem set_then_get_cur_state dm {HW} (st : world HW) cdev p dev
    fm fc f M s :
  registered st cdev p dev ->
  get_gpu_max_level dev = Some fm ->
  get_gpu_current_max_level dev = Some fc ->
  set_gpu_freq_idx dev = Some f ->
  (forall l hw, fc (f l hw) = l) ->
  (forall l hw, fm (f l hw) = fm hw) ->
  fm (gpu st) = M -> M < 2 ^ BITS_PER_INT -> 0 <= s <= M - 1 ->
  exists st',
    gpufreq_set_cur_state dm st cdev s = Some (0, st') /\
    gpu st' = f (M - 1 - s) (gpu st) /\
    forall state, gpufreq_get_cur_state dm st' cdev state = Some (0, s).
Proof.
  intros Hreg Hfm Hfc Hset Hread Hfixed HM HMi Hs.
  assert (0 <= M < 2 ^ BITS_PER_LONG dm) as HMr.
  { apply uint_within_ulong. lia. }
  assert (0 <= s < 2 ^ BITS_PER_LONG dm) as Hsr by lia.
  pose proof (set_cur_state_registered dm _ _ _ _ s Hreg) as Hrun.
  cbv zeta in Hrun.
  destruct (level_of_max dm dev fm (gpu st) M s Hfm HM HMr) as [Hmax Hlev].
  rewrite Hmax, Hlev, Hset, to_ulong_small in Hrun by lia.
  replace ((0 <=? M - 1 - s) && (M - 1 - s <=? M)) with true in Hrun
    by (symmetry; apply andb_true_intro; split; apply Z.leb_le; lia).
  rewrite (to_uint_small (M - 1 - s)) in Hrun by lia.
  eexists. split; [exact Hrun|]. split; [reflexivity|].
  intros state.
  assert (registered
            (set_gpu
               (set_kmem st
                  (<[p := set_gpufreq_state dev (to_uint s)]> (kmem st)))
               (f (M - 1 - s) (gpu st)))
            cdev p (set_gpufreq_state dev (to_uint s))) as Hreg'.
  { destruct Hreg as [Hc Hp]. split; [exact Hc|]. simpl.
    apply lookup_insert_eq. }
  rewrite (get_cur_state_registered _ _ _ _ _ _ Hreg'). simpl.
  unfold max_state_of. simpl. rewrite Hfc, Hfm, Hread, Hfixed, HM.
  rewrite inversion_to_ulong.
  replace (M - 1 - (M - 1 - s)) with s by lia.
  by rewrite to_ulong_small.
Qed.

(** ** Registration and removal *)

(** The outcomes of registering a live device: a failure, a publication,
    or a refusal that is not recognised as one. *)
Lemma register_cases {HW} (st : world HW) p dev :
  kmem st !! p = Some dev ->
  (gpufreq_cooling_register st p = Some (- EINVAL, kfree st p) /\
   (exhausted (gpufreq_idr st) \/
    (thermal_free (thermal st) = [] /\
     thermal_refusal (thermal st) = NULL))) \/
  (exists k i' h rest,
     idr_alloc (gpufreq_idr st) = (k, i') /\ 0 <= k /\
     thermal_free (thermal st) = h :: rest /\
     gpufreq_cooling_register st p
     = Some (0,
         {| gpufreq_idr := i';
            gpu_freq_callback := gpu_freq_callback st;
            thermal :=
              {| thermal_cdev_list :=
                   <[Z.pos h := {| type := dev_name k; devdata := p |}]>
                     (thermal_cdev_list (thermal st));
                 thermal_free := rest;
                 thermal_refusal := thermal_refusal (thermal st) |};
            kmem :=
              <[p := set_gpufreq_state
                       (set_cool_dev (set_id dev k) (Z.pos h)) 0]> (kmem st);
            gpu := gpu st |})) \/
  (exists k i',
     idr_alloc (gpufreq_idr st) = (k, i') /\ 0 <= k /\
     thermal_free (thermal st) = [] /\
     thermal_refusal (thermal st) <> NULL /\
     gpufreq_cooling_register st p
     = Some (0,
         {| gpufreq_idr := i';
            gpu_freq_callback := gpu_freq_callback st;
            thermal := thermal st;
            kmem :=
              <[p := set_gpufreq_state
                       (set_cool_dev (set_id dev k)
                          (thermal_refusal (thermal st))) 0]> (kmem st);
            gpu := gpu st |})).
Proof.
  intros Hp.
  destruct (idr_alloc (gpufreq_idr st)) as [k i'] eqn:Halloc.
  destruct (Z.lt_ge_cases k 0) as [Hneg|Hpos].
  { left. destruct (idr_alloc_fail _ _ _ Halloc Hneg) as (_ & _ & Hfull).
    split; [exact (register_exhausted _ _ _ Hp Hfull)|by left]. }
  destruct (thermal_free (thermal st)) as [|h rest] eqn:Hfree.
  - destruct (decide (thermal_refusal (thermal st) = NULL)) as [Hnull|Herr].
    + left. split; [|by right].
      apply (register_publish_failed _ _ _ _ _ Hp Halloc Hpos).
      unfold thermal_cooling_device_register. by rewrite Hfree.
    + right. right. exists k, i'. repeat (split; [done|]).
      exact (register_refused _ _ _ _ _ Hp Halloc Hpos Hfree Herr).
  - right. left. exists k, i', h, rest. repeat (split; [done|]).
    exact (register_ok _ _ _ _ _ _ _ Hp Halloc Hpos Hfree).
Qed.

(** X6: [gpufreq_cooling_register] on a live device returns 0 or [-EINVAL]
    and nothing else.  A failure leaves no trace but the freed device: the
    state is the state before with the device freed.  After a success the
    device is still live. *)
Theorem register_fails_cleanly {HW} (st : world HW) p dev :
  kmem st !! p = Some dev ->
  exists r st',
    gpufreq_cooling_register st p = Some (r, st') /\
    (r = 0 \/ r = - EINVAL) /\
    (r = - EINVAL -> st' = kfree st p /\ kmem st' !! p = None) /\
    (r = 0 -> is_Some (kmem st' !! p)).
Proof.
  intros Hp.
  destruct (register_cases _ _ _ Hp)
    as [[Hrun _]|[(k & i' & h & rest & _ & _ & _ & Hrun)
                 |(k & i' & _ & _ & _ & _ & Hrun)]].
  - exists (- EINVAL), (kfree st p). split; [exact Hrun|].
    split; [by right|]. split; [|discriminate].
    intros _. split; [reflexivity|]. simpl. apply lookup_delete_eq.
  - eexists 0, _. split; [exact Hrun|]. split; [by left|].
    split; [discriminate|]. intros _. simpl.
    rewrite lookup_insert_eq. by eexists.
  - eexists 0, _. split; [exact Hrun|]. split; [by left|].
    split; [discriminate|]. intros _. simpl.
    rewrite lookup_insert_eq. by eexists.
Qed.


(** X8: round trip: in a consistent state, a registration that publishes
    the device, followed by unregistering the handle the device received,
    is freeing the device: the allocator and the registry are back as they
    were. *)
Theorem register_unregister {HW} (st st1 : world HW) p dev :
  registry_consistent st ->
  kmem st !! p = Some dev ->
  ~ published st p ->
  gpufreq_cooling_register st p = Some (0, st1) ->
  published st1 p ->
  exists cdev,
    cool_dev <$> kmem st1 !! p = Some cdev /\
    gpufreq_cooling_unregister st1 cdev = Some (kfree st p).
Proof.
  intros (_ & _ & Hunpub) Hp Hnot Hrun Hpub.
  destruct (register_cases _ _ _ Hp)
    as [[Hfail _]|[(k & i' & h & rest & Halloc & Hk & Hfree & Hok)
                  |(k & i' & _ & _ & _ & _ & Hok)]].
  { rewrite Hfail in Hrun. discriminate. }
  2: { rewrite Hok in Hrun. injection Hrun as <-. by destruct Hnot. }
  rewrite Hok in Hrun. injection Hrun as <-.
  exists (Z.pos h). split; [simpl; by rewrite lookup_insert_eq|].
  erewrite unregister_ok; simpl;
    [|by rewrite lookup_insert_eq|by rewrite lookup_insert_eq|reflexivity].
  f_equal. unfold release_idr. simpl.
  rewrite (idr_remove_alloc _ _ _ Halloc Hk).
  rewrite (delete_insert_id (thermal_cdev_list (thermal st)))
    by (apply Hunpub; rewrite Hfree; apply list_elem_of_here).
  rewrite (delete_insert_eq (kmem st)).
  destruct st as [i cb [cdevs free refusal] mem hw]. simpl in *.
  by rewrite Hfree.
Qed.

(** X9: in a consistent state, [gpufreq_cooling_unregister] of a registered
    device frees the device, unpublishes its handle and releases its
    identifier; the callbacks are undefined on the handle afterwards; every
    other registered device stays registered, unchanged. *)
Theorem unregister_removes {HW} (st : world HW) cdev p dev :
  registry_consistent st ->
  registered st cdev p dev ->
  exists st',
    gpufreq_cooling_unregister st cdev = Some st' /\
    kmem st' = delete p (kmem st) /\
    cdev_devdata st' cdev = None /\
    (id dev ∉ idr_used (gpufreq_idr st')) /\
    (forall dm s, gpufreq_get_max_state dm st' cdev s = None /\
                  gpufreq_get_cur_state dm st' cdev s = None /\
                  gpufreq_set_cur_state dm st' cdev s = None) /\
    (forall cdev2 p2 dev2,
       registered st cdev2 p2 dev2 -> cdev2 <> cdev ->
       registered st' cdev2 p2 dev2).
Proof.
  intros (Hpub & _ & _) [Hc Hp].
  unfold cdev_devdata in Hc.
  destruct (thermal_cdev_list (thermal st) !! cdev) as [[name q]|] eqn:Hcd;
    [|discriminate].
  simpl in Hc. injection Hc as ->.
  destruct (Hpub _ _ Hcd) as ((h & ->) & dev0 & Hp0 & Hback).
  simpl in Hp0. rewrite Hp in Hp0. injection Hp0 as <-.
  eexists. split; [exact (unregister_ok _ _ _ _ _ Hcd Hp Hback)|].
  split; [reflexivity|].
  assert (Hgone : cdev_devdata
            {| gpufreq_idr := idr_remove (gpufreq_idr st) (id dev);
               gpu_freq_callback := gpu_freq_callback st;
               thermal :=
                 {| thermal_cdev_list :=
                      delete (Z.pos h) (thermal_cdev_list (thermal st));
                    thermal_free := h :: thermal_free (thermal st);
              thermal_refusal := thermal_refusal (thermal st) |};
               kmem := delete p (kmem st);
               gpu := gpu st |} (Z.pos h) = None).
  { unfold cdev_devdata. simpl. by rewrite lookup_delete_eq. }
  split; [exact Hgone|]. split.
  { simpl. rewrite elem_of_difference, elem_of_singleton. by intros [_ []]. }
  split.
  { intros dm s.
    unfold gpufreq_get_max_state, gpufreq_get_cur_state,
      gpufreq_set_cur_state.
    by rewrite Hgone. }
  intros cdev2 p2 dev2 [Hc2 Hp2] Hne. unfold cdev_devdata in Hc2.
  destruct (thermal_cdev_list (thermal st) !! cdev2) as [[name2 q2]|] eqn:Hcd2;
    [|discriminate].
  simpl in Hc2. injection Hc2 as ->.
  destruct (Hpub _ _ Hcd2) as (_ & dev2' & Hp2' & Hback2).
  simpl in Hp2'. rewrite Hp2 in Hp2'. injection Hp2' as <-.
  assert (p2 <> p) as Hpne.
  { intros ->. rewrite Hp in Hp2. injection Hp2 as <-. congruence. }
  split.
  - unfold cdev_devdata. simpl. by rewrite lookup_delete_ne, Hcd2.
  - simpl. by rewrite lookup_delete_ne.
Qed.

(** ** Device names *)

Lemma substring_length_le n s : (String.length (String.substring 0 n s) <= n)%nat.
Proof.
  revert s. induction n as [|n IH]; intros [|c s]; simpl; try lia.
  specialize (IH s). lia.
Qed.

(** The identifier read back from the digits of a name, for each of the
    first thousand identifiers. *)
Lemma dev_name_digits v :
  0 <= v < 1000 ->
  dev_name v
  = ("thermal-gpufreq-" ++ NilZero.string_of_int (Z.to_int v))%string /\
  Z.of_int <$> NilZero.int_of_string (String.substring 16 3 (dev_name v))
  = Some v.
Proof.
  intros Hv.
  assert (forallb
            (fun v =>
               bool_decide
                 (dev_name v
                  = ("thermal-gpufreq-"
                       ++ NilZero.string_of_int (Z.to_int v))%string) &&
               bool_decide
                 (Z.of_int <$>
                    NilZero.int_of_string
                      (String.substring 16 3 (dev_name v)) = Some v))
            (seqZ 0 1000) = true) as Hall by (vm_compute; reflexivity).
  rewrite forallb_forall in Hall.
  specialize (Hall v). rewrite andb_true_iff, !bool_decide_eq_true in Hall.
  apply Hall, list_elem_of_In, elem_of_seqZ. lia.
Qed.

(** X10: the name [snprintf] leaves in the buffer of [THERMAL_NAME_LENGTH]
    characters never has more than 19 of them.  Identifiers below 1000 are
    printed in full after the prefix, so that their names are distinct; from
    1000 on the digits are cut, and the identifiers 100 and 1000 share a
    name. *)
Theorem dev_name_cut_to_buffer :
  (forall v, (String.length (dev_name v) <= 19)%nat) /\
  (forall v, 0 <= v < 1000 ->
     dev_name v
     = ("thermal-gpufreq-" ++ NilZero.string_of_int (Z.to_int v))%string) /\
  (forall v1 v2, 0 <= v1 < 1000 -> 0 <= v2 < 1000 ->
     dev_name v1 = dev_name v2 -> v1 = v2) /\
  dev_name 1000 = dev_name 100.
Proof.
  split; [intros v; apply substring_length_le|].
  split; [intros v Hv; apply (dev_name_digits v Hv)|].
  split; [|reflexivity].
  intros v1 v2 Hv1 Hv2 Heq.
  destruct (dev_name_digits v1 Hv1) as [_ Hback1].
  destruct (dev_name_digits v2 Hv2) as [_ Hback2].
  rewrite Heq, Hback2 in Hback1. by injection Hback1.
Qed.

(** ** Allocation *)

(** X11: [gpufreq_cooling_alloc] never returns [NULL]: when [kzalloc] fails
    the result is the error pointer for [-ENOMEM], the address 2^w - 12, and
    the state is untouched.  Otherwise the result is the new device, which
    is live with every field zero and every callback null, beside the
    devices there were. *)
Theorem alloc_result dm {HW} (st : world HW) gcdev :
  gcdev = NULL \/ kmem st !! gcdev = None ->
  exists ptr st',
    gpufreq_cooling_alloc dm st gcdev = (ptr, st') /\
    ptr <> NULL /\
    (gcdev = NULL ->
     ptr = 2 ^ BITS_PER_LONG dm - ENOMEM /\ st' = st) /\
    (gcdev <> NULL ->
     ptr = gcdev /\
     kmem st' !! ptr = Some zeroed_device /\
     (forall q dev, kmem st !! q = Some dev -> kmem st' !! q = Some dev) /\
     gpufreq_idr st' = gpufreq_idr st /\ thermal st' = thermal st /\
     gpu_freq_callback st' = gpu_freq_callback st /\ gpu st' = gpu st).
Proof.
  intros Hfresh. unfold gpufreq_cooling_alloc.
  destruct (Z.eqb_spec gcdev NULL) as [->|Hne].
  - eexists _, _. split; [reflexivity|]. split; [by destruct dm|].
    split; [|done]. intros _. split; [by destruct dm|reflexivity].
  - eexists _, _. split; [reflexivity|]. split; [exact Hne|].
    split; [done|]. intros _. split; [reflexivity|]. simpl.
    split; [apply lookup_insert_eq|]. split; [|done].
    intros q dev Hq. destruct Hfresh as [?|Hnone]; [done|].
    rewrite lookup_insert_ne; [exact Hq|]. intros ->. congruence.
Qed.

(** X12: a device that is registered and published as it comes from
    [gpufreq_cooling_alloc], with no callback installed, has no levels:
    [gpufreq_get_max_state] leaves the caller's cell as it is,
    [gpufreq_get_cur_state] fails with [-EINVAL], and
    [gpufreq_set_cur_state] returns 0 without touching the driver. *)
Theorem alloc_register_without_callbacks dm {HW} (st st2 : world HW)
    gcdev s :
  gcdev <> NULL ->
  ~ published st gcdev ->
  gpufreq_cooling_register (gpufreq_cooling_alloc dm st gcdev).2 gcdev
  = Some (0, st2) ->
  published st2 gcdev ->
  exists cdev st3,
    cool_dev <$> kmem st2 !! gcdev = Some cdev /\
    gpufreq_get_max_state dm st2 cdev s = Some (0, s) /\
    gpufreq_get_cur_state dm st2 cdev s = Some (- EINVAL, s) /\
    gpufreq_set_cur_state dm st2 cdev s = Some (0, st3) /\
    gpu st3 = gpu st.
Proof.
  intros Hne Hnot Hrun Hpub. unfold gpufreq_cooling_alloc in Hrun.
  destruct (Z.eqb_spec gcdev NULL) as [?|_]; [done|]. simpl in Hrun.
  assert (kmem (set_kmem st (<[gcdev := zeroed_device]> (kmem st))) !! gcdev
          = Some zeroed_device) as Hlive by apply lookup_insert_eq.
  destruct (register_cases _ _ _ Hlive)
    as [[Hfail _]|[(k & i' & h & rest & _ & _ & _ & Hok)
                  |(k & i' & _ & _ & _ & _ & Hok)]].
  { rewrite Hfail in Hrun. discriminate. }
  2: { rewrite Hok in Hrun. injection Hrun as <-. by destruct Hnot. }
  rewrite Hok in Hrun. injection Hrun as <-.
  set (dev' := set_gpufreq_state
                 (set_cool_dev (set_id (@zeroed_device HW) k) (Z.pos h)) 0).
  assert (Hreg : registered
            {| gpufreq_idr := i';
               gpu_freq_callback := gpu_freq_callback st;
               thermal :=
                 {| thermal_cdev_list :=
                      <[Z.pos h := {| type := dev_name k; devdata := gcdev |}]>
                        (thermal_cdev_list (thermal st));
                    thermal_free := rest;
              thermal_refusal := thermal_refusal (thermal st) |};
               kmem := <[gcdev := dev']> (<[gcdev := zeroed_device]> (kmem st));
               gpu := gpu st |} (Z.pos h) gcdev dev').
  { split; [unfold cdev_devdata|]; simpl; by rewrite lookup_insert_eq. }
  exists (Z.pos h). eexists.
  split; [simpl; by rewrite lookup_insert_eq|].
  split; [by rewrite (get_max_state_registered _ _ _ _ _ _ Hreg)|].
  split; [by rewrite (get_cur_state_registered _ _ _ _ _ _ Hreg)|].
  split; [apply (set_cur_state_registered dm _ _ _ _ s Hreg)|].
  simpl. by destruct (_ && _).
Qed.

(** ** Consistency of the reachable states *)

Lemma registered_iff {HW} (st : world HW) c q d :
  registered st c q d <->
  exists cd, thermal_cdev_list (thermal st) !! c = Some cd /\
             devdata cd = q /\ kmem st !! q = Some d.
Proof.
  unfold registered, cdev_devdata. split.
  - intros [Hc Hq].
    destruct (thermal_cdev_list (thermal st) !! c) as [cd|]; [|discriminate].
    simpl in Hc. injection Hc as <-. by exists cd.
  - intros (cd & -> & <- & Hq). by split.
Qed.

(** In a consistent registry a published device is live. *)
Lemma published_live {HW} (st : world HW) p :
  registry_consistent st -> published st p -> is_Some (kmem st !! p).
Proof.
  intros (Hpub & _) [c Hc]. unfold cdev_devdata in Hc.
  destruct (thermal_cdev_list (thermal st) !! c) as [cd|] eqn:Hcd;
    [|discriminate].
  simpl in Hc. injection Hc as <-.
  destruct (Hpub _ _ Hcd) as (_ & dev & Hdev & _). by exists dev.
Qed.

(** Consistency looks at the allocator, the registry and the devices only. *)
Lemma consistent_ext {HW} (st st' : world HW) :
  gpufreq_idr st' = gpufreq_idr st -> thermal st' = thermal st ->
  kmem st' = kmem st -> consistent st -> consistent st'.
Proof.
  destruct st, st'. simpl. intros -> -> -> Hcons. exact Hcons.
Qed.

(** A store that keeps the identifier and the handle of a device. *)
Lemma consistent_store {HW} (st : world HW) p dev dev' :
  kmem st !! p = Some dev ->
  id dev' = id dev -> cool_dev dev' = cool_dev dev ->
  consistent st -> consistent (set_kmem st (<[p := dev']> (kmem st))).
Proof.
  intros Hp Hid Hcool [(Hpub & Hnodup & Hfree) (Hused & Huniq)].
  assert (forall c q d,
            registered (set_kmem st (<[p := dev']> (kmem st))) c q d ->
            exists d0, registered st c q d0 /\ id d0 = id d) as Hback.
  { intros c q d [Hc Hq]. simpl in Hq.
    destruct (decide (q = p)) as [->|Hne].
    - rewrite lookup_insert_eq in Hq. injection Hq as <-.
      exists dev. by split.
    - rewrite lookup_insert_ne in Hq by done. exists d. by split. }
  split; [split; [|by split]|split].
  - intros c [name q] Hcd. destruct (Hpub _ _ Hcd) as (Hpos & d0 & Hd0 & Hc0).
    split; [exact Hpos|]. simpl in *.
    destruct (decide (q = p)) as [->|Hne].
    + rewrite lookup_insert_eq. exists dev'. split; [done|].
      rewrite Hp in Hd0. injection Hd0 as <-. congruence.
    + rewrite lookup_insert_ne by done. by exists d0.
  - intros c q d Hreg. destruct (Hback _ _ _ Hreg) as (d0 & Hreg0 & <-).
    exact (Hused _ _ _ Hreg0).
  - intros c1 q1 d1 c2 q2 d2 Hreg1 Hreg2 Heq.
    destruct (Hback _ _ _ Hreg1) as (e1 & He1 & Hid1).
    destruct (Hback _ _ _ Hreg2) as (e2 & He2 & Hid2).
    apply (Huniq _ _ _ _ _ _ He1 He2). congruence.
Qed.

(** Memory that was not in use comes into use. *)
Lemma consistent_fresh {HW} (st : world HW) q d :
  kmem st !! q = None ->
  consistent st -> consistent (set_kmem st (<[q := d]> (kmem st))).
Proof.
  intros Hq [(Hpub & Hnodup & Hfree) (Hused & Huniq)].
  assert (forall c p e,
            registered (set_kmem st (<[q := d]> (kmem st))) c p e ->
            registered st c p e) as Hback.
  { intros c p e Hreg. apply registered_iff in Hreg as (cd & Hcd & <- & He).
    apply registered_iff. exists cd. split; [exact Hcd|]. split; [done|].
    destruct (Hpub _ _ Hcd) as (_ & d0 & Hd0 & _).
    simpl in He. rewrite lookup_insert_ne in He; [exact He|].
    intros ->. congruence. }
  split; [split; [|by split]|split].
  - intros c cd Hcd. destruct (Hpub _ _ Hcd) as (Hpos & d0 & Hd0 & Hc0).
    split; [exact Hpos|]. exists d0. split; [|exact Hc0]. simpl.
    rewrite lookup_insert_ne; [exact Hd0|]. intros ->. congruence.
  - intros c p e Hreg. exact (Hused _ _ _ (Hback _ _ _ Hreg)).
  - intros c1 q1 d1 c2 q2 d2 Hreg1 Hreg2.
    exact (Huniq _ _ _ _ _ _ (Hback _ _ _ Hreg1) (Hback _ _ _ Hreg2)).
Qed.

(** A device that is not published is freed. *)
Lemma consistent_kfree {HW} (st : world HW) p :
  ~ published st p -> consistent st -> consistent (kfree st p).
Proof.
  intros Hunpub [(Hpub & Hnodup & Hfree) (Hused & Huniq)].
  assert (forall c q e, registered (kfree st p) c q e -> registered st c q e)
    as Hback.
  { intros c q e [Hc Hq]. split; [exact Hc|]. simpl in Hq.
    apply lookup_delete_Some in Hq as [_ Hq]. exact Hq. }
  split; [split; [|by split]|split].
  - intros c cd Hcd. simpl in Hcd.
    destruct (Hpub _ _ Hcd) as (Hpos & d0 & Hd0 & Hc0).
    split; [exact Hpos|]. exists d0. split; [|exact Hc0]. simpl.
    rewrite lookup_delete_ne; [exact Hd0|].
    intros ->. apply Hunpub. exists c. unfold cdev_devdata. by rewrite Hcd.
  - intros c q e Hreg. exact (Hused _ _ _ (Hback _ _ _ Hreg)).
  - intros c1 q1 d1 c2 q2 d2 Hreg1 Hreg2.
    exact (Huniq _ _ _ _ _ _ (Hback _ _ _ Hreg1) (Hback _ _ _ Hreg2)).
Qed.

(** A device that is not published is registered. *)
Lemma consistent_register_ok {HW} (st : world HW) p dev k i' h rest :
  kmem st !! p = Some dev ->
  idr_alloc (gpufreq_idr st) = (k, i') -> 0 <= k ->
  thermal_free (thermal st) = h :: rest ->
  ~ published st p ->
  consistent st ->
  consistent
    {| gpufreq_idr := i';
       gpu_freq_callback := gpu_freq_callback st;
       thermal :=
         {| thermal_cdev_list :=
              <[Z.pos h := {| type := dev_name k; devdata := p |}]>
                (thermal_cdev_list (thermal st));
            thermal_free := rest;
              thermal_refusal := thermal_refusal (thermal st) |};
       kmem :=
         <[p := set_gpufreq_state (set_cool_dev (set_id dev k) (Z.pos h)) 0]>
           (kmem st);
       gpu := gpu st |}.
Proof.
  intros Hp Halloc Hk Hfree Hunpub [(Hpub & Hnodup & Hfreeun) (Hused & Huniq)].
  destruct (idr_alloc_ok _ _ _ Halloc Hk) as (_ & Hfresh & _ & ->).
  rewrite Hfree in Hnodup, Hfreeun.
  apply NoDup_cons in Hnodup as [Hhead Hnodup].
  set (dev' := set_gpufreq_state (set_cool_dev (set_id dev k) (Z.pos h)) 0).
  set (st' := {| gpufreq_idr := _ |}).
  assert (forall c cd, c <> Z.pos h ->
            thermal_cdev_list (thermal st) !! c = Some cd ->
            p <> devdata cd) as Hother.
  { intros c cd _ Hcd Heq. apply Hunpub. exists c.
    unfold cdev_devdata. rewrite Hcd. simpl. by rewrite Heq. }
  assert (forall c q e, registered st' c q e ->
            (c = Z.pos h /\ q = p /\ e = dev') \/
            (c <> Z.pos h /\ registered st c q e)) as Hcases.
  { intros c q e Hreg. apply registered_iff in Hreg as (cd & Hcd & <- & He).
    simpl in Hcd, He. destruct (decide (c = Z.pos h)) as [->|Hne].
    - left. rewrite lookup_insert_eq in Hcd. injection Hcd as <-.
      simpl in *. rewrite lookup_insert_eq in He. injection He as <-. done.
    - right. rewrite lookup_insert_ne in Hcd by done.
      rewrite lookup_insert_ne in He by (by apply (Hother c)).
      split; [done|]. apply registered_iff. by exists cd. }
  split; [split; [|split]|split].
  - intros c cd Hcd. simpl in Hcd.
    destruct (decide (c = Z.pos h)) as [->|Hne].
    + rewrite lookup_insert_eq in Hcd. injection Hcd as <-.
      split; [by exists h|]. exists dev'. simpl.
      by rewrite lookup_insert_eq.
    + rewrite lookup_insert_ne in Hcd by done.
      destruct (Hpub _ _ Hcd) as (Hpos & d0 & Hd0 & Hc0).
      split; [exact Hpos|]. exists d0. split; [|exact Hc0]. simpl.
      rewrite lookup_insert_ne; [exact Hd0|]. by apply (Hother c).
  - exact Hnodup.
  - intros h' Hin. simpl in *. rewrite lookup_insert_ne.
    + apply Hfreeun. by apply list_elem_of_further.
    + intros [= ->]. done.
  - intros c q e Hreg. simpl.
    destruct (Hcases _ _ _ Hreg) as [(_ & _ & ->)|[_ Hold]].
    + apply elem_of_union_l, elem_of_singleton. reflexivity.
    + apply elem_of_union_r. exact (Hused _ _ _ Hold).
  - intros c1 q1 d1 c2 q2 d2 Hreg1 Hreg2 Heq.
    destruct (Hcases _ _ _ Hreg1) as [(_ & -> & ->)|[_ Hold1]];
      destruct (Hcases _ _ _ Hreg2) as [(_ & -> & ->)|[_ Hold2]].
    + reflexivity.
    + exfalso. apply Hfresh. simpl in Heq. rewrite Heq.
      exact (Hused _ _ _ Hold2).
    + exfalso. apply Hfresh. simpl in Heq. rewrite <- Heq.
      exact (Hused _ _ _ Hold1).
    + exact (Huniq _ _ _ _ _ _ Hold1 Hold2 Heq).
Qed.

(** A device that is not published is given an identifier, and nothing is
    published for it. *)
Lemma consistent_register_refused {HW} (st : world HW) p d i' :
  ~ published st p ->
  (forall x, x ∈ idr_used (gpufreq_idr st) -> x ∈ idr_used i') ->
  consistent st ->
  consistent
    {| gpufreq_idr := i';
       gpu_freq_callback := gpu_freq_callback st;
       thermal := thermal st;
       kmem := <[p := d]> (kmem st);
       gpu := gpu st |}.
Proof.
  intros Hunpub Hgrow [(Hpub & Hnodup & Hfree) (Hused & Huniq)].
  set (st' := {| gpufreq_idr := _ |}).
  assert (forall c cd, thermal_cdev_list (thermal st) !! c = Some cd ->
            p <> devdata cd) as Hother.
  { intros c cd Hcd Heq. apply Hunpub. exists c.
    unfold cdev_devdata. rewrite Hcd. simpl. by rewrite Heq. }
  assert (forall c q e, registered st' c q e -> registered st c q e) as Hback.
  { intros c q e Hreg. apply registered_iff in Hreg as (cd & Hcd & <- & He).
    simpl in Hcd, He. rewrite lookup_insert_ne in He by (by apply (Hother c)).
    apply registered_iff. by exists cd. }
  split; [split; [|by split]|split].
  - intros c cd Hcd. simpl in Hcd.
    destruct (Hpub _ _ Hcd) as (Hpos & d0 & Hd0 & Hc0).
    split; [exact Hpos|]. exists d0. split; [|exact Hc0]. simpl.
    rewrite lookup_insert_ne; [exact Hd0|]. by apply (Hother c).
  - intros c q e Hreg. simpl. apply Hgrow.
    exact (Hused _ _ _ (Hback _ _ _ Hreg)).
  - intros c1 q1 d1 c2 q2 d2 Hreg1 Hreg2.
    exact (Huniq _ _ _ _ _ _ (Hback _ _ _ Hreg1) (Hback _ _ _ Hreg2)).
Qed.

(** A registered device is unregistered. *)
Lemma consistent_unregister_ok {HW} (st : world HW) h name p dev :
  thermal_cdev_list (thermal st) !! Z.pos h
  = Some {| type := name; devdata := p |} ->
  kmem st !! p = Some dev ->
  cool_dev dev = Z.pos h ->
  consistent st ->
  consistent
    {| gpufreq_idr := idr_remove (gpufreq_idr st) (id dev);
       gpu_freq_callback := gpu_freq_callback st;
       thermal :=
         {| thermal_cdev_list :=
              delete (Z.pos h) (thermal_cdev_list (thermal st));
            thermal_free := h :: thermal_free (thermal st);
              thermal_refusal := thermal_refusal (thermal st) |};
       kmem := delete p (kmem st);
       gpu := gpu st |}.
Proof.
  intros Hh Hp Hcool [(Hpub & Hnodup & Hfreeun) (Hused & Huniq)].
  set (st' := {| gpufreq_idr := _ |}).
  assert (registered st (Z.pos h) p dev) as Hreg0.
  { apply registered_iff. eexists. by split; [exact Hh|]. }
  assert (forall c q e, registered st' c q e ->
            q <> p /\ registered st c q e) as Hback.
  { intros c q e Hreg. apply registered_iff in Hreg as (cd & Hcd & <- & He).
    simpl in Hcd, He.
    apply lookup_delete_Some in Hcd as [_ Hcd].
    apply lookup_delete_Some in He as [Hne He].
    split; [done|]. apply registered_iff. by exists cd. }
  split; [split; [|split]|split].
  - intros c cd Hcd. simpl in Hcd.
    apply lookup_delete_Some in Hcd as [Hne Hcd].
    destruct (Hpub _ _ Hcd) as (Hpos & d0 & Hd0 & Hc0).
    split; [exact Hpos|]. exists d0. split; [|exact Hc0]. simpl.
    rewrite lookup_delete_ne; [exact Hd0|].
    intros Heq. rewrite Heq, Hd0 in Hp. injection Hp as ->. congruence.
  - simpl. apply NoDup_cons. split; [|exact Hnodup].
    intros Hin. apply Hfreeun in Hin. congruence.
  - intros h' Hin. simpl in *. apply lookup_delete_None.
    apply elem_of_cons in Hin as [->|Hin]; [by left|].
    right. by apply Hfreeun.
  - intros c q e Hreg. destruct (Hback _ _ _ Hreg) as [Hne Hold]. simpl.
    apply elem_of_difference. split; [exact (Hused _ _ _ Hold)|].
    rewrite elem_of_singleton. intros Heq.
    apply Hne. exact (Huniq _ _ _ _ _ _ Hold Hreg0 Heq).
  - intros c1 q1 d1 c2 q2 d2 Hreg1 Hreg2.
    destruct (Hback _ _ _ Hreg1) as [_ Hold1].
    destruct (Hback _ _ _ Hreg2) as [_ Hold2].
    exact (Huniq _ _ _ _ _ _ Hold1 Hold2).
Qed.

(** Every call keeps the state consistent. *)
Lemma run_consistent dm {HW} (st st' : world HW) c :
  consistent st -> allowed st c -> run dm st c = Some st' -> consistent st'.
Proof.
  intros Hcons Hallowed Hrun. destruct c as [gcdev|p|cdev|cdev s|fn];
    simpl in Hrun, Hallowed.
  - unfold gpufreq_cooling_alloc in Hrun.
    destruct (Z.eqb_spec gcdev NULL) as [_|Hne]; injection Hrun as <-;
      [exact Hcons|].
    destruct Hallowed as [?|Hnone]; [done|]. simpl.
    by apply consistent_fresh.
  - destruct (kmem st !! p) as [dev|] eqn:Hp.
    + destruct (register_cases _ _ _ Hp)
        as [[Hfail _]|[(k & i' & h & rest & Halloc & Hk & Hfree & Hok)
                      |(k & i' & Halloc & Hk & _ & _ & Hok)]].
      * rewrite Hfail in Hrun. injection Hrun as <-.
        by apply consistent_kfree.
      * rewrite Hok in Hrun. injection Hrun as <-.
        by apply (consistent_register_ok _ _ _ _ _ _ _ Hp Halloc Hk Hfree).
      * rewrite Hok in Hrun. injection Hrun as <-.
        apply consistent_register_refused; [done| |done].
        destruct (idr_alloc_ok _ _ _ Halloc Hk) as (_ & _ & _ & ->).
        intros x Hx. simpl. by apply elem_of_union_r.
    + unfold gpufreq_cooling_register in Hrun. by rewrite Hp in Hrun.
  - unfold gpufreq_cooling_unregister in Hrun.
    destruct (cdev =? NULL); [by injection Hrun as <-|].
    unfold cdev_devdata in Hrun.
    destruct (thermal_cdev_list (thermal st) !! cdev) as [[name p]|] eqn:Hcd;
      [|discriminate].
    simpl in Hrun.
    destruct (kmem st !! p) as [dev|] eqn:Hp; [|discriminate].
    destruct Hcons as [Hreg Hids].
    destruct (proj1 Hreg _ _ Hcd) as ((h & ->) & dev0 & Hp0 & Hback).
    simpl in Hp0. rewrite Hp in Hp0. injection Hp0 as <-.
    simpl in Hrun. unfold thermal_cooling_device_unregister in Hrun.
    rewrite Hback, Hcd in Hrun. injection Hrun as <-.
    by apply (consistent_unregister_ok _ _ _ _ _ Hcd Hp Hback).
  - destruct (gpufreq_set_cur_state dm st cdev s) as [[r st1]|] eqn:Hset;
      [|discriminate].
    injection Hrun as <-.
    assert (exists p dev, registered st cdev p dev) as (p & dev & Hreg).
    { unfold gpufreq_set_cur_state in Hset.
      destruct (cdev_devdata st cdev) as [p|] eqn:Hc; [|discriminate].
      simpl in Hset.
      destruct (kmem st !! p) as [dev|] eqn:Hp; [|discriminate].
      by exists p, dev. }
    rewrite (set_cur_state_registered dm _ _ _ _ s Hreg) in Hset.
    injection Hset as _ <-.
    apply (consistent_ext
             (set_kmem st
                (<[p := set_gpufreq_state dev (to_uint s)]> (kmem st)))).
    + by destruct (_ && _); [destruct (set_gpu_freq_idx dev)|].
    + by destruct (_ && _); [destruct (set_gpu_freq_idx dev)|].
    + by destruct (_ && _); [destruct (set_gpu_freq_idx dev)|].
    + by apply (consistent_store _ _ dev); [apply Hreg|..].
  - injection Hrun as <-. by destruct fn; apply (consistent_ext st).
Qed.

Lemma boot_consistent {HW} space free refusal devs (hw : HW) :
  NoDup free -> consistent (boot space free refusal devs hw).
Proof.
  intros Hnodup. split; [split; [|split]|split].
  - intros c cd Hcd. simpl in Hcd. by rewrite lookup_empty in Hcd.
  - exact Hnodup.
  - intros h _. apply lookup_empty.
  - intros c p d [Hc _]. unfold cdev_devdata in Hc. simpl in Hc.
    by rewrite lookup_empty in Hc.
  - intros c1 p1 d1 c2 p2 d2 [Hc _]. unfold cdev_devdata in Hc. simpl in Hc.
    by rewrite lookup_empty in Hc.
Qed.

Lemma reachable_consistent dm {HW} (st0 st : world HW) :
  consistent st0 -> reachable dm st0 st -> consistent st.
Proof.
  intros Hstart Hreach. induction Hreach as [|st c st' _ IH Hallowed Hrun].
  - exact Hstart.
  - exact (run_consistent dm _ _ _ IH Hallowed Hrun).
Qed.

Lemma runs_reachable dm {HW} (st0 st st' : world HW) cs :
  reachable dm st0 st -> runs_allowed dm st cs ->
  runs dm st cs = Some st' -> reachable dm st0 st'.
Proof.
  revert st. induction cs as [|c cs IH]; intros st Hreach Hallowed Hruns.
  - injection Hruns as <-. exact Hreach.
  - simpl in Hruns, Hallowed. destruct Hallowed as [Hc Hrest].
    destruct (run dm st c) as [st1|] eqn:Hrun; [|discriminate].
    simpl in Hruns. apply (IH st1); [|exact Hrest|exact Hruns].
    exact (reachable_call dm st0 st c st1 Hreach Hc Hrun).
Qed.

(** X13: identifiers are unique among the registered devices at every
    instant: in every state the driver reaches from boot, by calls that
    register a device once, two registered devices have different
    identifiers, and the identifier of each is in use in the allocator. *)
Theorem registered_ids_unique dm {HW} space free refusal devs (hw : HW) st :
  NoDup free ->
  reachable dm (boot space free refusal devs hw) st ->
  (forall cdev1 p1 dev1 cdev2 p2 dev2,
     registered st cdev1 p1 dev1 -> registered st cdev2 p2 dev2 ->
     p1 <> p2 -> id dev1 <> id dev2) /\
  (forall cdev p dev,
     registered st cdev p dev -> id dev ∈ idr_used (gpufreq_idr st)).
Proof.
  intros Hnodup Hreach.
  destruct (reachable_consistent dm _ _ (boot_consistent _ _ _ _ _ Hnodup) Hreach)
    as [_ [Hused Huniq]].
  split; [|exact Hused].
  intros c1 p1 d1 c2 p2 d2 Hreg1 Hreg2 Hne Heq.
  exact (Hne (Huniq _ _ _ _ _ _ Hreg1 Hreg2 Heq)).
Qed.

(** X14: no handle dangles: in every state the driver reaches from boot,
    every published handle leads to a live device that holds that very
    handle, so that the three callbacks are defined on it, and no handle
    the registry may still hand out is published. *)
Theorem published_handles_live dm {HW} space free refusal devs (hw : HW)
    st :
  NoDup free ->
  reachable dm (boot space free refusal devs hw) st ->
  (forall cdev, is_Some (thermal_cdev_list (thermal st) !! cdev) ->
     exists p dev,
       registered st cdev p dev /\ cool_dev dev = cdev /\
       forall s,
         is_Some (gpufreq_get_max_state dm st cdev s) /\
         is_Some (gpufreq_get_cur_state dm st cdev s) /\
         is_Some (gpufreq_set_cur_state dm st cdev s)) /\
  (forall h, h ∈ thermal_free (thermal st) ->
     thermal_cdev_list (thermal st) !! Z.pos h = None).
Proof.
  intros Hnodup Hreach.
  destruct (reachable_consistent dm _ _ (boot_consistent _ _ _ _ _ Hnodup) Hreach)
    as [(Hpub & _ & Hfree) _].
  split; [|exact Hfree].
  intros cdev [cd Hcd]. destruct (Hpub _ _ Hcd) as (_ & dev & Hdev & Hback).
  assert (registered st cdev (devdata cd) dev) as Hreg.
  { apply registered_iff. by exists cd. }
  exists (devdata cd), dev. split; [exact Hreg|]. split; [exact Hback|].
  intros s.
  rewrite (get_max_state_registered _ _ _ _ _ _ Hreg).
  rewrite (get_cur_state_registered _ _ _ _ _ _ Hreg).
  rewrite (set_cur_state_registered dm _ _ _ _ s Hreg).
  split; [by eexists|]. split; [|by eexists].
  by destruct (get_gpu_current_max_level dev).
Qed.

(** ** The allocator behind registration *)

(** X15: [get_idr] either returns 0 and writes an identifier that was free
    and is now in use, or returns a negative error, writes nothing and
    leaves the allocator as it was; [release_idr] of the identifier written
    undoes the allocation. *)
Theorem get_idr_outcomes i :
  exists ret i' w,
    get_idr i = (ret, i', w) /\
    ((ret = 0 /\
      exists k, w = Some k /\ 0 <= k < idr_space i /\
                (k ∉ idr_used i) /\
                idr_used i' = {[k]} ∪ idr_used i /\
                release_idr i' k = i) \/
     (ret < 0 /\ w = None /\ i' = i /\ exhausted i)).
Proof.
  destruct (idr_alloc i) as [k i'] eqn:Halloc.
  destruct (Z.lt_ge_cases k 0) as [Hneg|Hpos].
  - destruct (idr_alloc_fail _ _ _ Halloc Hneg) as (-> & -> & Hfull).
    exists (- ENOSPC), i, None. split; [exact (get_idr_full _ Hfull)|].
    right. by repeat split.
  - exists 0, i', (Some k). split; [exact (get_idr_ok _ _ _ Halloc Hpos)|].
    left. split; [reflexivity|]. exists k. split; [reflexivity|].
    pose proof (idr_remove_alloc _ _ _ Halloc Hpos) as Hundo.
    destruct (idr_alloc_ok _ _ _ Halloc Hpos) as (Hlt & Hfresh & _ & ->).
    split; [lia|]. split; [exact Hfresh|]. split; [reflexivity|exact Hundo].
Qed.

(** * The further properties on the scenarios *)

Module RunFacts.
Import Scenario.

Lemma governed_registered level :
  registered (Governed.at_level level) 1 4096 Governed.device.
Proof. split; reflexivity. Defined.

Lemma governed_registry_consistent level :
  registry_consistent (Governed.at_level level).
Proof.
  split; [|split].
  - intros cdev cd Hcd. simpl in Hcd.
    apply lookup_singleton_Some in Hcd as [<- <-].
    split; [by exists 1%positive|]. exists Governed.device. by split.
  - repeat (apply NoDup_cons; split;
              [rewrite ?elem_of_cons, elem_of_nil; intros H;
               repeat destruct H as [H|H]; by inversion H|]).
    apply NoDup_nil_2.
  - intros h Hin. simpl in *. apply lookup_singleton_None.
    rewrite !elem_of_cons, elem_of_nil in Hin.
    destruct Hin as [->|[->|[]]]; discriminate.
Defined.

(** A device without a current-level callback: [-EINVAL], and the caller's 7
    stays. *)
Lemma get_cur_state_status_scenario :
  gpufreq_get_cur_state LP64 (one_device (Some 4) None true) 1 7
  = Some (- EINVAL, 7).
Proof.
  destruct (get_cur_state_status LP64 (one_device (Some 4) None true)
              1 4096 _ 7 (ScenarioFacts.one_device_registered _ _ _))
    as (r & out & Hrun & _ & [_ Hr] & Hout).
  rewrite Hrun, (Hr eq_refl), (Hout (Hr eq_refl)). reflexivity.
Defined.

(** Levels 1 and 2 of 0..3 read as the states 2 and 1. *)
Lemma cur_state_reverses_levels_scenario :
  gpufreq_get_cur_state LP64 (Governed.at_level 1) 1 0 = Some (0, 2) /\
  gpufreq_get_cur_state LP64 (Governed.at_level 2) 1 0 = Some (0, 1).
Proof.
  destruct (cur_state_reverses_levels LP64
              (Governed.at_level 1) (Governed.at_level 2) 1 4096
              Governed.device (fun _ => 4) (fun level => level) 4 1 2
              (governed_registered 1) (governed_registered 2)
              eq_refl eq_refl eq_refl eq_refl eq_refl eq_refl
              ltac:(lia) ltac:(lia) ltac:(reflexivity))
    as (s1 & s2 & H1 & H2 & -> & -> & _).
  split; assumption.
Defined.

(** State 2 of 0..3 requests level 1. *)
Lemma set_cur_state_invocation_scenario :
  exists st',
    gpufreq_set_cur_state LP64 (one_device (Some 4) (Some 1) true) 1 2
    = Some (0, st') /\
    gpu st' = [1].
Proof.
  destruct (set_cur_state_invocation LP64
              (one_device (Some 4) (Some 1) true) 1 4096 _
              (fun _ => 4) log_level 4 2
              (ScenarioFacts.one_device_registered _ _ _)
              eq_refl eq_refl eq_refl
              ltac:(split; [lia|reflexivity]) ltac:(split; [lia|reflexivity]))
    as (st' & Hrun & Hin & _).
  exists st'. split; [exact Hrun|]. exact (Hin ltac:(lia)).
Defined.

(** A request leaves the allocator and the registry alone. *)
Lemma set_cur_state_frame_scenario :
  exists st',
    gpufreq_set_cur_state LP64 (one_device (Some 4) (Some 1) true) 1 2
    = Some (0, st') /\
    gpufreq_idr st' = gpufreq_idr (one_device (Some 4) (Some 1) true) /\
    thermal st' = thermal (one_device (Some 4) (Some 1) true).
Proof.
  destruct (set_cur_state_frame LP64
              (one_device (Some 4) (Some 1) true) 1 4096 _ 2
              (ScenarioFacts.one_device_registered _ _ _))
    as (st' & Hrun & Hidr & Hreg & _).
  exists st'. by split.
Defined.

(** State 1 set, state 1 read back, with the driver at level 2. *)
Lemma set_then_get_cur_state_scenario :
  exists st',
    gpufreq_set_cur_state LP64 (Governed.at_level 0) 1 1 = Some (0, st') /\
    gpu st' = 2 /\
    gpufreq_get_cur_state LP64 st' 1 0 = Some (0, 1).
Proof.
  destruct (set_then_get_cur_state LP64 (Governed.at_level 0) 1 4096
              Governed.device (fun _ => 4) (fun level => level)
              (fun idx _ => idx) 4 1
              (governed_registered 0) eq_refl eq_refl eq_refl
              (fun _ _ => eq_refl) (fun _ _ => eq_refl) eq_refl
              ltac:(reflexivity) ltac:(lia))
    as (st' & Hrun & Hgpu & Hget).
  exists st'. split; [exact Hrun|]. split; [exact Hgpu|]. apply Hget.
Defined.

(** With no identifier left, registration has one of its two outcomes, and
    a failure frees the device. *)
Lemma register_fails_cleanly_scenario :
  exists r st',
    gpufreq_cooling_register no_identifier_left 4096 = Some (r, st') /\
    (r = 0 \/ r = - EINVAL) /\
    (r = - EINVAL -> st' = kfree no_identifier_left 4096).
Proof.
  destruct (register_fails_cleanly no_identifier_left 4096
              (device (Some 4) (Some 1) true) eq_refl)
    as (r & st' & Hrun & Hcodes & Hfail & _).
  exists r, st'. split; [exact Hrun|]. split; [exact Hcodes|].
  intros Hr. exact (proj1 (Hfail Hr)).
Defined.

Lemma three_devices_unpublished p : ~ published three_devices p.
Proof. intros [c Hc]. discriminate Hc. Defined.


(** Registering and unregistering the first device at boot frees it. *)
Lemma register_unregister_scenario :
  exists st1 cdev,
    gpufreq_cooling_register three_devices 4096 = Some (0, st1) /\
    gpufreq_cooling_unregister st1 cdev = Some (kfree three_devices 4096).
Proof.
  destruct (gpufreq_cooling_register three_devices 4096) as [[r st1]|] eqn:Hrun;
    [|discriminate Hrun].
  assert (r = 0 /\ published st1 4096) as [-> Hpub].
  { injection Hrun as <- <-. split; [reflexivity|]. by exists 1. }
  destruct (register_unregister three_devices st1 4096
              (device (Some 4) (Some 1) true)) as (cdev & _ & Hun).
  - apply (boot_consistent (2 ^ 31) [1%positive; 2%positive; 3%positive]).
    repeat (apply NoDup_cons; split;
              [rewrite ?elem_of_cons, elem_of_nil; intros H;
               repeat destruct H as [H|H]; by inversion H|]).
    apply NoDup_nil_2.
  - reflexivity.
  - apply three_devices_unpublished.
  - exact Hrun.
  - exact Hpub.
  - exists st1, cdev. split; [reflexivity|exact Hun].
Defined.

(** The governed device unregistered: freed, and identifier 0 released. *)
Lemma unregister_removes_scenario :
  exists st',
    gpufreq_cooling_unregister (Governed.at_level 0) 1 = Some st' /\
    kmem st' !! 4096 = None /\
    (0 ∉ idr_used (gpufreq_idr st')).
Proof.
  destruct (unregister_removes (Governed.at_level 0) 1 4096 Governed.device
              (governed_registry_consistent 0) (governed_registered 0))
    as (st' & Hrun & Hmem & _ & Hid & _).
  exists st'. split; [exact Hrun|]. split; [|exact Hid].
  rewrite Hmem. apply lookup_delete_eq.
Defined.

(** A first allocation at address 4096. *)
Lemma alloc_result_scenario :
  exists st',
    gpufreq_cooling_alloc LP64 Governed.empty 4096 = (4096, st') /\
    kmem st' !! 4096 = Some zeroed_device.
Proof.
  destruct (alloc_result LP64 Governed.empty 4096 (or_intror eq_refl))
    as (ptr & st' & Hrun & _ & _ & Hok).
  destruct (Hok ltac:(discriminate)) as (-> & Hlive & _).
  exists st'. split; [exact Hrun|exact Hlive].
Defined.

(** Allocated and registered as it is, the device has no levels. *)
Lemma alloc_register_without_callbacks_scenario :
  exists st2 cdev,
    gpufreq_cooling_register
      (gpufreq_cooling_alloc LP64 Governed.empty 4096).2 4096
    = Some (0, st2) /\
    gpufreq_get_max_state LP64 st2 cdev 7 = Some (0, 7) /\
    gpufreq_get_cur_state LP64 st2 cdev 7 = Some (- EINVAL, 7).
Proof.
  destruct (gpufreq_cooling_register
              (gpufreq_cooling_alloc LP64 Governed.empty 4096).2 4096)
    as [[r st2]|] eqn:Hrun; [|discriminate Hrun].
  assert (r = 0 /\ published st2 4096) as [-> Hpub].
  { injection Hrun as <- <-. split; [reflexivity|]. by exists 1. }
  destruct (alloc_register_without_callbacks LP64 Governed.empty st2 4096 7
              ltac:(discriminate)
              ltac:(intros [c Hc]; discriminate Hc) Hrun Hpub)
    as (cdev & st3 & _ & Hmax & Hcur & _).
  exists st2, cdev. split; [reflexivity|]. by split.
Defined.

Lemma three_handles_distinct :
  NoDup [1%positive; 2%positive; 3%positive].
Proof.
  repeat (apply NoDup_cons; split;
            [rewrite ?elem_of_cons, elem_of_nil; intros H;
             repeat destruct H as [H|H]; by inversion H|]).
  apply NoDup_nil_2.
Defined.

(** Two allocations and two registrations from boot. *)
Lemma two_registered_reachable :
  exists st,
    runs LP64 Governed.empty
      [call_alloc 4096; call_register 4096;
       call_alloc 8192; call_register 8192] = Some st /\
    reachable LP64 Governed.empty st.
Proof.
  eexists. split; [reflexivity|].
  apply (runs_reachable LP64 Governed.empty Governed.empty _
           [call_alloc 4096; call_register 4096;
            call_alloc 8192; call_register 8192]);
    [apply reachable_start| |reflexivity].
  simpl. split; [by right|]. split.
  { intros [c Hc]. discriminate Hc. }
  split; [by right|]. split; [|exact I].
  intros [c Hc]. unfold cdev_devdata in Hc. simpl in Hc.
  destruct (decide (c = 1)) as [->|Hne].
  - rewrite lookup_insert_eq in Hc. discriminate Hc.
  - rewrite lookup_insert_ne, lookup_empty in Hc by done. discriminate Hc.
Defined.

(** After them, the two devices hold different identifiers. *)
Lemma registered_ids_unique_scenario :
  exists st,
    reachable LP64 Governed.empty st /\
    forall cdev1 p1 dev1 cdev2 p2 dev2,
      registered st cdev1 p1 dev1 -> registered st cdev2 p2 dev2 ->
      p1 <> p2 -> id dev1 <> id dev2.
Proof.
  destruct two_registered_reachable as (st & _ & Hreach).
  exists st. split; [exact Hreach|].
  exact (proj1 (registered_ids_unique LP64 (2 ^ 31) _ _ ∅ 0 st
                  three_handles_distinct Hreach)).
Defined.

(** After them, the free handles are not published. *)
Lemma published_handles_live_scenario :
  exists st,
    reachable LP64 Governed.empty st /\
    forall h, h ∈ thermal_free (thermal st) ->
      thermal_cdev_list (thermal st) !! Z.pos h = None.
Proof.
  destruct two_registered_reachable as (st & _ & Hreach).
  exists st. split; [exact Hreach|].
  exact (proj2 (published_handles_live LP64 (2 ^ 31) _ _ ∅ 0 st
                  three_handles_distinct Hreach)).
Defined.

End RunFacts.
